(** * SLSTK3400A-ADXL362: the wake/sleep core of [main.c]

    A shallow embedding of [main.c] (version 3.2): the boot sequence, the
    two initialisation routines [initGPIOwakeup] and [initRTCcomp], and the
    endless loop that alternates between an active tick and energy mode 2.

    The program is a sequence of calls into the vendor library (emlib /
    CMSIS) and into the sibling modules [accel.c], [util.c] and
    [handlers.c].  Each such call is an [event]; a run of the program is the
    list of events it performs, interleaved with the interrupt handlers that
    ran in between.  The only datum shared with the handlers is the global
    [triggered], which is the state threaded through the code. *)

From Stdlib Require Import ZArith List Bool String Lia.
From Stdlib Require Import Floats.SpecFloat.
From stdpp Require Import gmap.
Import ListNotations.

Local Open Scope Z_scope.

(** ** Vocabulary of the vendor library, as far as [main.c] uses it *)

Inductive CMU_Clock_TypeDef :=
| cmuClock_GPIO | cmuClock_HFLE | cmuClock_LFA | cmuClock_RTC | cmuClock_CORE.

Inductive CMU_Osc_TypeDef := cmuOsc_LFXO.

Inductive CMU_Select_TypeDef := cmuSelect_LFXO.

Inductive GPIO_Port_TypeDef :=
| gpioPortA | gpioPortB | gpioPortC | gpioPortD | gpioPortE | gpioPortF.

Inductive GPIO_Mode_TypeDef :=
| gpioModeDisabled
| gpioModeInput
| gpioModeInputPull
| gpioModeInputPullFilter
| gpioModePushPull.

Inductive IRQn_Type := GPIO_EVEN_IRQn | GPIO_ODD_IRQn | RTC_IRQn.

Inductive RTC_IEN_flag := RTC_IEN_OF | RTC_IEN_COMP0 | RTC_IEN_COMP1.

Inductive USART_TypeDef := USART0 | USART1.

Record RTC_Init_TypeDef := {
  enable : bool;     (* start counting when the initialisation completes *)
  debugRun : bool;   (* keep counting while the core is halted by a debugger *)
  comp0Top : bool    (* wrap around when the counter reaches COMP0 *)
}.

(** [RTC_INIT_DEFAULT] of em_rtc.h: enabled, halted during debug, COMP0 is
    the top value. *)
Definition RTC_INIT_DEFAULT : RTC_Init_TypeDef :=
  {| enable := true; debugRun := false; comp0Top := true |}.

(** Registers of the accelerometer that [main.c] names. *)
Inductive ADXL_REG := ADXL_REG_STATUS | ADXL_REG_POWER_CTL.

(** ** Pin mapping

    [pin_mapping.h] is not embedded here; the mapping is the
    one of the "Pinout" section in the header comment of [main.c]:
    PC09 = PB0, PC10 = PB1, PD07 = INT1. *)
Definition PB0_PORT := gpioPortC.
Definition PB0_PIN : Z := 9.
Definition PB1_PORT := gpioPortC.
Definition PB1_PIN : Z := 10.
Definition ADXL_INT1_PORT := gpioPortD.
Definition ADXL_INT1_PIN : Z := 7.

(** ** Wake events and the calls of the program *)

Inductive Button := PB0 | PB1.

(** The three kinds of wake source; each one runs an interrupt handler. *)
Inductive WakeEvent :=
| ButtonPressed (id : Button)
| MotionDetected
| TimerExpired.

Inductive event :=
(* CMSIS / emlib *)
| CHIP_Init
| CMU_ClockFreqGet (clock : CMU_Clock_TypeDef)
| SysTick_Config (ticks : Z)
| CMU_OscillatorEnable (osc : CMU_Osc_TypeDef) (on wait : bool)
| CMU_ClockEnable (clock : CMU_Clock_TypeDef) (on : bool)
| CMU_ClockSelectSet (clock : CMU_Clock_TypeDef) (ref : CMU_Select_TypeDef)
| RTC_CompareSet (comp : Z) (value : Z)
| RTC_IntEnable (flag : RTC_IEN_flag)
| NVIC_ClearPendingIRQ (irq : IRQn_Type)
| NVIC_EnableIRQ (irq : IRQn_Type)
| RTC_Init (init : RTC_Init_TypeDef)
| GPIO_PinModeSet (port : GPIO_Port_TypeDef) (pin : Z)
                  (mode : GPIO_Mode_TypeDef) (out : Z)
| GPIO_IntConfig (port : GPIO_Port_TypeDef) (pin : Z)
                 (risingEdge fallingEdge on : bool)
| EMU_EnterEM2 (restore : bool)
(* dbprint *)
| dbprint_INIT (uart : USART_TypeDef) (location : Z) (vcom interrupts : bool)
| dbprintln (message : string)
| dbinfo (message : string)
(* accel.c *)
| initADXL_VCC
| initADXL_SPI
| resetHandlerADXL
| configADXL_range (givenRange : Z)
| configADXL_ODR (givenODR : Z)
| configADXL_activity (gThreshold : Z)
| measureADXL (enabled : bool)
| readADXL (address : ADXL_REG)
| enableSPIpinsADXL (enabled : bool)
(* util.c *)
| initLEDS
| led0 (enabled : bool)
| Delay (dlyTicks : Z)
| systickInterrupts (enabled : bool)
(* the shared flag, seen from the foreground *)
| ReadTriggered (value : bool)
| WriteTriggered (value : bool)
(* an interrupt handler ran *)
| Irq (source : WakeEvent).

(** ** What the program cannot decide: its environment

    Where a statement stands is given by its line in [main.c].  The
    environment says which interrupt handlers run right before each
    statement (during boot, and in every round of the loop), which interrupt
    ends the sleep of each round, and what the two library calls of line 134
    return. *)
Record Env := {
  core_clock : Z;                            (* CMU_ClockFreqGet(cmuClock_CORE) *)
  systick_result : Z;                        (* SysTick_Config(...) *)
  boot_irq : nat -> list WakeEvent;          (* line |-> handlers run before it *)
  loop_irq : nat -> nat -> list WakeEvent;   (* round, line |-> handlers *)
  wake_irq : nat -> WakeEvent                (* round |-> what ends the sleep *)
}.

(** ** The monad of the foreground code

    A computation starts from the current value of [triggered] and yields a
    result (or [None] when the fuel ran out before it returned), the new
    value of [triggered], and the events it performed, oldest first. *)
Definition M (A : Type) : Type := bool -> option A * bool * list event.

Definition ret {A} (a : A) : M A := fun t => (Some a, t, []).

Definition bind {A B} (m : M A) (k : A -> M B) : M B :=
  fun t =>
    match m t with
    | (Some a, t1, tr1) =>
        match k a t1 with
        | (b, t2, tr2) => (b, t2, tr1 ++ tr2)
        end
    | (None, t1, tr1) => (None, t1, tr1)
    end.

Notation "x <- m ;; k" := (bind m (fun x => k))
  (at level 20, m at level 99, k at level 200, only parsing).
Notation "m ;; k" := (bind m (fun _ => k))
  (at level 100, k at level 200, right associativity, only parsing).

Definition result {A} (r : option A * bool * list event) : option A := fst (fst r).
Definition flag {A} (r : option A * bool * list event) : bool := snd (fst r).
Definition trace {A} (r : option A * bool * list event) : list event := snd r.

(** A call into the library or a sibling module. *)
Definition call (e : event) : M unit := fun t => (Some tt, t, [e]).

(** [while (1) body]: the loop has no exit, so with any amount of fuel the
    result is [None]; [body] is told the number of the round. *)
Fixpoint forever {A} (fuel : nat) (round : nat) (body : nat -> M unit) : M A :=
  match fuel with
  | O => fun t => (None, t, [])
  | S fuel' => body round ;; forever fuel' (S round) body
  end.

(** The text that line 205 prints: it ends with a carriage return and a
    line feed. *)
Definition sleep_message : string :=
  String.append "Disabling systick & going to sleep..."
    (String (Ascii.ascii_of_nat 13) (String (Ascii.ascii_of_nat 10) EmptyString)).

Section Program.

(** [DEBUGGING] is the macro of debugging.h: [true] when it is defined. *)
Variable DEBUGGING : bool.

(** What a handler of [handlers.c] does to [triggered]: [true] when the
    handler for that source raises the flag. *)
Variable raises : WakeEvent -> bool.

Variable env : Env.

(** One interrupt: the handler runs to completion between two statements. *)
Definition interrupt (w : WakeEvent) : M unit :=
  fun t => (Some tt, raises w || t, [Irq w]).

(** Several interrupts in a row: the flag is raised when one of the handlers
    raises it. *)
Definition interrupts (ws : list WakeEvent) : M unit :=
  fun t => (Some tt, existsb raises ws || t, map Irq ws).

(** The statement [e] of the boot code at [line]. *)
Definition boot_stmt (line : nat) (e : event) : M unit :=
  interrupts (boot_irq env line) ;; call e.

(** The statement [e] of the loop at [line], in the given round. *)
Definition loop_stmt (round line : nat) (e : event) : M unit :=
  interrupts (loop_irq env round line) ;; call e.

(** [if (triggered)]: one read of the volatile flag. *)
Definition read_triggered : M bool :=
  fun t => (Some t, t, [ReadTriggered t]).

(** [triggered = value;] *)
Definition write_triggered (value : bool) : M unit :=
  fun _ => (Some tt, value, [WriteTriggered value]).

(** Code under [#ifdef DEBUGGING ... #endif]. *)
Definition ifdef_DEBUGGING (m : M unit) : M unit :=
  if DEBUGGING then m else ret tt.

(** *** Lines 48-51 *)

(** [DELAY_RTC] is the [double] constant 60.0 = 15 * 2^2. *)
Definition DELAY_RTC : spec_float := binary_normalize 53 1024 15 2 false.

Definition LFXOFREQ : Z := 32768.

(** Conversion of an [int] to [double] (every 32-bit integer is a
    [double]). *)
Definition double_of_int (n : Z) : spec_float := binary_normalize 53 1024 n 0 false.

(** [COMPARE_RTC] is [(DELAY_RTC * LFXOFREQ)]: the integer is converted to
    [double] and the product is rounded to nearest even. *)
Definition COMPARE_RTC : spec_float :=
  SFmul 53 1024 DELAY_RTC (double_of_int LFXOFREQ).

(** Conversion of a [double] to [uint32_t] at a call: the fraction is
    discarded; the values out of range (undefined in C) are mapped to 0. *)
Definition uint32_of_double (x : spec_float) : Z :=
  match x with
  | S754_finite false m e =>
      let z := if 0 <=? e then Z.shiftl (Z.pos m) e else Z.shiftr (Z.pos m) (- e) in
      if z <? 2 ^ 32 then z else 0
  | _ => 0
  end.

(** *** [initGPIOwakeup], lines 62-86 *)
Definition initGPIOwakeup : M unit :=
  boot_stmt 65 (CMU_ClockEnable cmuClock_GPIO true) ;;
  boot_stmt 68 (GPIO_PinModeSet PB0_PORT PB0_PIN gpioModeInputPullFilter 1) ;;
  boot_stmt 69 (GPIO_PinModeSet PB1_PORT PB1_PIN gpioModeInputPullFilter 1) ;;
  boot_stmt 72 (GPIO_PinModeSet ADXL_INT1_PORT ADXL_INT1_PIN gpioModeInput 1) ;;
  boot_stmt 75 (NVIC_EnableIRQ GPIO_EVEN_IRQn) ;;
  boot_stmt 78 (NVIC_EnableIRQ GPIO_ODD_IRQn) ;;
  boot_stmt 81 (GPIO_IntConfig PB0_PORT PB0_PIN false true true) ;;
  boot_stmt 82 (GPIO_IntConfig PB1_PORT PB1_PIN false true true) ;;
  boot_stmt 85 (GPIO_IntConfig ADXL_INT1_PORT ADXL_INT1_PIN true false true).

(** *** [initRTCcomp], lines 92-119 *)
Definition initRTCcomp : M unit :=
  boot_stmt 95 (CMU_OscillatorEnable cmuOsc_LFXO true true) ;;
  boot_stmt 98 (CMU_ClockEnable cmuClock_HFLE true) ;;
  boot_stmt 101 (CMU_ClockSelectSet cmuClock_LFA cmuSelect_LFXO) ;;
  boot_stmt 104 (CMU_ClockEnable cmuClock_RTC true) ;;
  boot_stmt 107 (RTC_CompareSet 0 (uint32_of_double COMPARE_RTC)) ;;
  boot_stmt 110 (RTC_IntEnable RTC_IEN_COMP0) ;;
  boot_stmt 111 (NVIC_ClearPendingIRQ RTC_IRQn) ;;
  boot_stmt 112 (NVIC_EnableIRQ RTC_IRQn) ;;
  boot_stmt 118 (RTC_Init RTC_INIT_DEFAULT).

(** *** [main], lines 190-215: one round of [while(1)] *)
Definition loop_body (round : nat) : M unit :=
  loop_stmt round 192 (led0 true) ;;
  loop_stmt round 193 (Delay 1000) ;;
  loop_stmt round 194 (led0 false) ;;
  t <- (interrupts (loop_irq env round 198) ;; read_triggered) ;;
  (if t : bool then
     loop_stmt round 200 (readADXL ADXL_REG_STATUS) ;;
     interrupts (loop_irq env round 201) ;; write_triggered false
   else ret tt) ;;
  ifdef_DEBUGGING
    (loop_stmt round 205 (dbinfo sleep_message)) ;;
  loop_stmt round 208 (systickInterrupts false) ;;
  loop_stmt round 209 (enableSPIpinsADXL false) ;;
  (* the call blocks until an interrupt ends the sleep; its handler runs
     before the call returns *)
  loop_stmt round 211 (EMU_EnterEM2 false) ;;
  interrupt (wake_irq env round) ;;
  loop_stmt round 213 (enableSPIpinsADXL true) ;;
  loop_stmt round 214 (systickInterrupts true).

Definition main_loop (fuel : nat) : M Z := forever fuel 0 loop_body.

(** *** [main], lines 131-188: the boot sequence, after line 134 *)
Definition main_init : M unit :=
  initRTCcomp ;;
  initGPIOwakeup ;;
  ifdef_DEBUGGING (boot_stmt 143 (dbprint_INIT USART1 4 true false)) ;;
  boot_stmt 148 initADXL_VCC ;;
  boot_stmt 151 initADXL_SPI ;;
  boot_stmt 154 initLEDS ;;
  boot_stmt 157 resetHandlerADXL ;;
  boot_stmt 165 (configADXL_range 1) ;;
  boot_stmt 168 (configADXL_ODR 0) ;;
  boot_stmt 176 (configADXL_activity 3) ;;
  boot_stmt 184 (measureADXL true) ;;
  ifdef_DEBUGGING (boot_stmt 187 (dbprintln "")).

(** *** [main], lines 126-216

    [fuel] bounds the rounds of whichever endless loop is entered: the
    empty [while (1);] of line 134 or the loop of line 190. *)
Definition main (fuel : nat) : M Z :=
  boot_stmt 131 CHIP_Init ;;
  boot_stmt 134 (CMU_ClockFreqGet cmuClock_CORE) ;;
  call (SysTick_Config ((core_clock env mod 2 ^ 32) / 1000)) ;;
  (if negb (systick_result env =? 0)
   then forever fuel 0 (fun _ => ret tt)
   else ret tt) ;;
  main_init ;;
  main_loop fuel.

End Program.

(** ** Reading a run *)

Definition is_irq (e : event) : bool :=
  match e with Irq _ => true | _ => false end.

(** Calls of the optional diagnostic output (dbprint). *)
Definition is_debug (e : event) : bool :=
  match e with
  | dbprint_INIT _ _ _ _ | dbprintln _ | dbinfo _ => true
  | _ => false
  end.

(** What the foreground code did: the run without the handlers. *)
Definition foreground (tr : list event) : list event :=
  List.filter (fun e => negb (is_irq e)) tr.

(** The run without the diagnostic output. *)
Definition core (tr : list event) : list event :=
  List.filter (fun e => negb (is_debug e)) tr.

(** Operations that talk to the accelerometer over the SPI bus. *)
Definition is_bus_access (e : event) : bool :=
  match e with
  | resetHandlerADXL | configADXL_range _ | configADXL_ODR _
  | configADXL_activity _ | measureADXL _ | readADXL _ => true
  | _ => false
  end.

(** The configuration writes among them. *)
Definition is_config_write (e : event) : bool :=
  match e with
  | configADXL_range _ | configADXL_ODR _ | configADXL_activity _ => true
  | _ => false
  end.

Definition is_status_read (e : event) : bool :=
  match e with readADXL ADXL_REG_STATUS => true | _ => false end.

(** The operations of the two power transitions. *)
Definition is_power_transition (e : event) : bool :=
  match e with
  | systickInterrupts _ | enableSPIpinsADXL _ | EMU_EnterEM2 _ => true
  | _ => false
  end.

(** *** Monitors: a property of every step of a run

    A monitor keeps a state of its own along the run ([next]) and judges
    every step in the state reached before it ([ok]). *)
Section Monitor.
Context {E S : Type}.
Variable next : S -> E -> S.
Variable ok : S -> E -> bool.

Fixpoint replay (s : S) (tr : list E) : S :=
  match tr with
  | [] => s
  | e :: tr' => replay (next s e) tr'
  end.

Fixpoint always (s : S) (tr : list E) : bool :=
  match tr with
  | [] => true
  | e :: tr' => ok s e && always (next s e) tr'
  end.
End Monitor.

(** The value of [triggered] along a run: handlers raise it, the foreground
    stores to it. *)
Definition flag_next (raises : WakeEvent -> bool) (t : bool) (e : event) : bool :=
  match e with
  | Irq w => raises w || t
  | WriteTriggered v => v
  | _ => t
  end.

(** Deep sleep is entered with [triggered] clear. *)
Definition sleep_ok (t : bool) (e : event) : bool :=
  match e with EMU_EnterEM2 _ => negb t | _ => true end.

Definition sleeps_with_flag_clear (raises : WakeEvent -> bool) (t : bool)
    (tr : list event) : bool :=
  always (flag_next raises) sleep_ok t tr.

(** Whether the SPI pins are enabled: [enableSPIpinsADXL] switches them;
    [initADXL_SPI] (in accel.c, which is not embedded here) initialises USART0 as
    the SPI bus with its pins, as the comment of line 150 says, and the boot
    code talks to the accelerometer right after it. *)
Definition pins_next (pins : bool) (e : event) : bool :=
  match e with
  | initADXL_SPI => true
  | enableSPIpinsADXL on => on
  | _ => pins
  end.

Definition bus_ok (pins : bool) (e : event) : bool :=
  if is_bus_access e then pins else true.

Definition bus_only_with_pins (pins : bool) (tr : list event) : bool :=
  always pins_next bus_ok pins tr.

(** Whether the accelerometer has been reset, and whether it is measuring:
    the reset leaves it in standby, [measureADXL] switches measurement. *)
Definition adxl_next (s : bool * bool) (e : event) : bool * bool :=
  match e with
  | resetHandlerADXL => (true, false)
  | measureADXL on => (fst s, on)
  | _ => s
  end.

(** A configuration write comes after the reset and in standby. *)
Definition config_ok (s : bool * bool) (e : event) : bool :=
  if is_config_write e then fst s && negb (snd s) else true.

Definition configured_in_standby (tr : list event) : bool :=
  always adxl_next config_ok (false, false) tr.

(** *** The shape of one round, as the foreground sees it

    [t] is what the test of line 198 read. *)
Definition tick_part (t : bool) : list event :=
  [led0 true; Delay 1000; led0 false; ReadTriggered t]
  ++ (if t then [readADXL ADXL_REG_STATUS; WriteTriggered false] else []).

Definition debug_part (DEBUGGING : bool) : list event :=
  if DEBUGGING then [dbinfo sleep_message] else [].

Definition sleep_part : list event :=
  [systickInterrupts false; enableSPIpinsADXL false; EMU_EnterEM2 false].

Definition wake_part : list event :=
  [enableSPIpinsADXL true; systickInterrupts true].

(** The handlers that run after the flag was tested (and cleared) and before
    the sleep is entered, in the given round. *)
Definition sleep_window (DEBUGGING : bool) (env : Env) (round : nat) : list WakeEvent :=
  (if DEBUGGING then loop_irq env round 205 else [])
  ++ loop_irq env round 208 ++ loop_irq env round 209 ++ loop_irq env round 211.

(** The handlers that run before the flag is tested, in the given round. *)
Definition tick_window (env : Env) (round : nat) : list WakeEvent :=
  loop_irq env round 192 ++ loop_irq env round 193
  ++ loop_irq env round 194 ++ loop_irq env round 198.

(** *** Environments for the two builds

    A build without [DEBUGGING] has no statement at lines 143, 187 and 205.
    [mute_debug] has no handler run right before these lines;
    [merge_debug] has the handlers of such a line run right before the next
    statement instead. *)
Definition is_debug_line (line : nat) : bool :=
  (line =? 143)%nat || (line =? 187)%nat || (line =? 205)%nat.

Definition mute_debug (env : Env) : Env :=
  {| core_clock := core_clock env;
     systick_result := systick_result env;
     boot_irq := fun line => if is_debug_line line then [] else boot_irq env line;
     loop_irq := fun round line =>
       if is_debug_line line then [] else loop_irq env round line;
     wake_irq := wake_irq env |}.

Definition merge_debug (env : Env) : Env :=
  {| core_clock := core_clock env;
     systick_result := systick_result env;
     boot_irq := fun line =>
       if (line =? 148)%nat then boot_irq env 143 ++ boot_irq env 148
       else boot_irq env line;
     loop_irq := fun round line =>
       if (line =? 208)%nat then loop_irq env round 205 ++ loop_irq env round 208
       else if ((round =? 0) && (line =? 192))%nat
       then boot_irq env 187 ++ loop_irq env 0 192
       else loop_irq env round line;
     wake_irq := wake_irq env |}.

(** Modelled from the spec: [handlers.c] is missing.  "Interrupt
    handlers set the Event Flag and return immediately": every handler
    raises [triggered]. *)
Definition handlers_raise : WakeEvent -> bool := fun _ => true.

(** ** The hardware behind the calls

    The vendor library is not part of the repository; what its calls do to
    the peripherals is taken from emlib and the EFM32 reference manual, for
    the calls that [initGPIOwakeup] and [initRTCcomp] make. *)

#[global] Instance GPIO_Port_eq_dec : EqDecision GPIO_Port_TypeDef.
Proof. solve_decision. Defined.

#[global] Instance IRQn_eq_dec : EqDecision IRQn_Type.
Proof. solve_decision. Defined.

Definition GPIO_Port_index (p : GPIO_Port_TypeDef) : nat :=
  match p with
  | gpioPortA => 0 | gpioPortB => 1 | gpioPortC => 2
  | gpioPortD => 3 | gpioPortE => 4 | gpioPortF => 5
  end%nat.

Definition GPIO_Port_of_index (n : nat) : option GPIO_Port_TypeDef :=
  match n with
  | 0 => Some gpioPortA | 1 => Some gpioPortB | 2 => Some gpioPortC
  | 3 => Some gpioPortD | 4 => Some gpioPortE | 5 => Some gpioPortF
  | _ => None
  end%nat.

#[global] Program Instance GPIO_Port_countable : Countable GPIO_Port_TypeDef :=
  inj_countable GPIO_Port_index GPIO_Port_of_index _.
Next Obligation. intros []; reflexivity. Qed.

Definition IRQn_index (i : IRQn_Type) : nat :=
  match i with GPIO_EVEN_IRQn => 0 | GPIO_ODD_IRQn => 1 | RTC_IRQn => 2 end%nat.

Definition IRQn_of_index (n : nat) : option IRQn_Type :=
  match n with
  | 0 => Some GPIO_EVEN_IRQn | 1 => Some GPIO_ODD_IRQn | 2 => Some RTC_IRQn
  | _ => None
  end%nat.

#[global] Program Instance IRQn_countable : Countable IRQn_Type :=
  inj_countable IRQn_index IRQn_of_index _.
Next Obligation. intros []; reflexivity. Qed.

(** [BUS_RegBitWrite]: write one bit of a register. *)
Definition BUS_RegBitWrite (reg : Z) (bit : Z) (val : bool) : Z :=
  if val then Z.setbit reg bit else Z.clearbit reg bit.

Module GPIO.

(** The GPIO block and the interrupt controller. *)
Record t := {
  MODE : gmap (GPIO_Port_TypeDef * Z) GPIO_Mode_TypeDef;
                                 (* P[port].MODEL/MODEH, one field per pin *)
  DOUT : gset (GPIO_Port_TypeDef * Z);   (* the pins whose DOUT bit is 1 *)
  EXTIPSEL : gmap Z GPIO_Port_TypeDef;   (* EXTIPSELL/H: line |-> port *)
  EXTIRISE : Z;                          (* bit n: line n, rising edge *)
  EXTIFALL : Z;                          (* bit n: line n, falling edge *)
  IFLAGS : Z;                            (* IF: pending lines *)
  IEN : Z;                               (* bit n: line n may interrupt *)
  ISER : gset IRQn_Type                  (* NVIC: the unmasked lines *)
}.

(** A pin that was never configured is in its reset mode. *)
Definition pin_mode (hw : t) (port : GPIO_Port_TypeDef) (pin : Z) : GPIO_Mode_TypeDef :=
  default gpioModeDisabled (MODE hw !! (port, pin)).

Definition pin_dout (hw : t) (port : GPIO_Port_TypeDef) (pin : Z) : bool :=
  bool_decide ((port, pin) ∈ DOUT hw).

(** The pin modes, as em_gpio.h documents them:
    - [gpioModeDisabled]: input disabled, pull-up if DOUT is set;
    - [gpioModeInput]: input enabled, filter if DOUT is set;
    - [gpioModeInputPull]: input enabled, DOUT determines pull direction;
    - [gpioModeInputPullFilter]: input enabled with filter, DOUT
      determines pull direction;
    - [gpioModePushPull]: push-pull output. *)
Definition input_enabled (mode : GPIO_Mode_TypeDef) : bool :=
  match mode with
  | gpioModeInput | gpioModeInputPull | gpioModeInputPullFilter => true
  | _ => false
  end.

Definition glitch_filter (mode : GPIO_Mode_TypeDef) (dout : bool) : bool :=
  match mode with
  | gpioModeInputPullFilter => true
  | gpioModeInput => dout
  | _ => false
  end.

Definition is_input (hw : t) (port : GPIO_Port_TypeDef) (pin : Z) : bool :=
  input_enabled (pin_mode hw port pin).

Definition is_filtered (hw : t) (port : GPIO_Port_TypeDef) (pin : Z) : bool :=
  glitch_filter (pin_mode hw port pin) (pin_dout hw port pin).

(** Line [pin] is routed to [port] and may interrupt. *)
Definition armed (hw : t) (port : GPIO_Port_TypeDef) (pin : Z) : bool :=
  bool_decide (EXTIPSEL hw !! pin = Some port) && Z.testbit (IEN hw) pin.

Definition on_rising (hw : t) (pin : Z) : bool := Z.testbit (EXTIRISE hw) pin.
Definition on_falling (hw : t) (pin : Z) : bool := Z.testbit (EXTIFALL hw) pin.

Definition unmasked (hw : t) (irq : IRQn_Type) : bool :=
  bool_decide (irq ∈ ISER hw).

(** [GPIO_PinModeSet]: the DOUT bit of the pin becomes [out] and its mode
    field becomes [mode] (for [gpioModeDisabled] the library writes DOUT
    after the mode, otherwise before). *)
Definition PinModeSet (port : GPIO_Port_TypeDef) (pin : Z)
    (mode : GPIO_Mode_TypeDef) (out : Z) (hw : t) : t :=
  {| MODE := <[(port, pin) := mode]> (MODE hw);
     DOUT := if out =? 0 then DOUT hw ∖ {[(port, pin)]}
             else {[(port, pin)]} ∪ DOUT hw;
     EXTIPSEL := EXTIPSEL hw; EXTIRISE := EXTIRISE hw; EXTIFALL := EXTIFALL hw;
     IFLAGS := IFLAGS hw; IEN := IEN hw; ISER := ISER hw |}.

(** [GPIO_IntConfig], that is [GPIO_ExtIntConfig] with the line of the
    same number as the pin: select the port, write the two edge bits,
    clear what is pending, write the enable bit. *)
Definition IntConfig (port : GPIO_Port_TypeDef) (pin : Z)
    (risingEdge fallingEdge on : bool) (hw : t) : t :=
  {| MODE := MODE hw; DOUT := DOUT hw;
     EXTIPSEL := <[pin := port]> (EXTIPSEL hw);
     EXTIRISE := BUS_RegBitWrite (EXTIRISE hw) pin risingEdge;
     EXTIFALL := BUS_RegBitWrite (EXTIFALL hw) pin fallingEdge;
     IFLAGS := Z.clearbit (IFLAGS hw) pin;
     IEN := BUS_RegBitWrite (IEN hw) pin on;
     ISER := ISER hw |}.

Definition EnableIRQ (irq : IRQn_Type) (hw : t) : t :=
  {| MODE := MODE hw; DOUT := DOUT hw; EXTIPSEL := EXTIPSEL hw;
     EXTIRISE := EXTIRISE hw; EXTIFALL := EXTIFALL hw;
     IFLAGS := IFLAGS hw; IEN := IEN hw;
     ISER := {[irq]} ∪ ISER hw |}.

Definition step (hw : t) (e : event) : t :=
  match e with
  | GPIO_PinModeSet port pin mode out => PinModeSet port pin mode out hw
  | GPIO_IntConfig port pin r f on => IntConfig port pin r f on hw
  | NVIC_EnableIRQ irq => EnableIRQ irq hw
  | _ => hw
  end.

Definition run (hw : t) (tr : list event) : t := replay step hw tr.

(** The state after a reset of the chip. *)
Definition reset : t :=
  {| MODE := ∅; DOUT := ∅; EXTIPSEL := ∅; EXTIRISE := 0; EXTIFALL := 0;
     IFLAGS := 0; IEN := 0; ISER := ∅ |}.

(** What the specification says of the wake sources once
    [initGPIOwakeup] has returned. *)
Definition button_armed (hw : t) (port : GPIO_Port_TypeDef) (pin : Z) : bool :=
  is_input hw port pin && is_filtered hw port pin
  && armed hw port pin && on_falling hw pin.

Definition motion_armed (hw : t) (filtered : bool) : bool :=
  is_input hw ADXL_INT1_PORT ADXL_INT1_PIN
  && eqb (is_filtered hw ADXL_INT1_PORT ADXL_INT1_PIN) filtered
  && armed hw ADXL_INT1_PORT ADXL_INT1_PIN
  && on_rising hw ADXL_INT1_PIN && negb (on_falling hw ADXL_INT1_PIN).

Definition wake_sources_armed (hw : t) (motion_filtered : bool) : bool :=
  button_armed hw PB0_PORT PB0_PIN && button_armed hw PB1_PORT PB1_PIN
  && motion_armed hw motion_filtered
  && unmasked hw GPIO_EVEN_IRQn && unmasked hw GPIO_ODD_IRQn.

End GPIO.

Module RTC.

(** The real-time counter with its compare channel 0, and the line of the
    interrupt controller it drives. *)
Record t := {
  COMP0 : Z;            (* RTC->COMP0, 24 bits *)
  CNT : Z;              (* RTC->CNT, 24 bits *)
  CTRL_EN : bool;       (* RTC->CTRL, EN: the counter runs *)
  CTRL_COMP0TOP : bool; (* RTC->CTRL, COMP0TOP: wrap around at COMP0 *)
  IEN_COMP0 : bool;     (* RTC->IEN, COMP0 *)
  IF_COMP0 : bool;      (* RTC->IF, COMP0: the counter matched COMP0 *)
  pending : bool;       (* NVIC: RTC_IRQn is pending *)
  unmasked : bool       (* NVIC: RTC_IRQn is enabled *)
}.

(** What happens to the counter: a call of the program, or one cycle of the
    32768 Hz clock. *)
Inductive input := Call (e : event) | Tick.

Definition COMP0_MASK : Z := 16777215. (* 0x00FFFFFF *)

(** The line is level sensitive: a flag that is set and enabled makes the
    interrupt pending. *)
Definition raise_line (hw : t) : t :=
  {| COMP0 := COMP0 hw; CNT := CNT hw; CTRL_EN := CTRL_EN hw;
     CTRL_COMP0TOP := CTRL_COMP0TOP hw; IEN_COMP0 := IEN_COMP0 hw;
     IF_COMP0 := IF_COMP0 hw;
     pending := pending hw || (IF_COMP0 hw && IEN_COMP0 hw);
     unmasked := unmasked hw |}.

(** One clock cycle: a running counter advances (or wraps around at COMP0),
    and reaching COMP0 sets the flag; a stopped counter stays at its value. *)
Definition tick (hw : t) : t :=
  if CTRL_EN hw then
    let cnt := if CTRL_COMP0TOP hw && (CNT hw =? COMP0 hw) then 0
               else (CNT hw + 1) mod (COMP0_MASK + 1) in
    raise_line
      {| COMP0 := COMP0 hw; CNT := cnt; CTRL_EN := true;
         CTRL_COMP0TOP := CTRL_COMP0TOP hw; IEN_COMP0 := IEN_COMP0 hw;
         IF_COMP0 := IF_COMP0 hw || (cnt =? COMP0 hw);
         pending := pending hw; unmasked := unmasked hw |}
  else raise_line hw.

Definition do_call (hw : t) (e : event) : t :=
  match e with
  | RTC_CompareSet 0 value =>
      {| COMP0 := Z.land value COMP0_MASK; CNT := CNT hw; CTRL_EN := CTRL_EN hw;
         CTRL_COMP0TOP := CTRL_COMP0TOP hw; IEN_COMP0 := IEN_COMP0 hw;
         IF_COMP0 := IF_COMP0 hw; pending := pending hw; unmasked := unmasked hw |}
  | RTC_IntEnable RTC_IEN_COMP0 =>
      raise_line
        {| COMP0 := COMP0 hw; CNT := CNT hw; CTRL_EN := CTRL_EN hw;
           CTRL_COMP0TOP := CTRL_COMP0TOP hw; IEN_COMP0 := true;
           IF_COMP0 := IF_COMP0 hw; pending := pending hw; unmasked := unmasked hw |}
  | NVIC_ClearPendingIRQ RTC_IRQn =>
      raise_line
        {| COMP0 := COMP0 hw; CNT := CNT hw; CTRL_EN := CTRL_EN hw;
           CTRL_COMP0TOP := CTRL_COMP0TOP hw; IEN_COMP0 := IEN_COMP0 hw;
           IF_COMP0 := IF_COMP0 hw; pending := false; unmasked := unmasked hw |}
  | NVIC_EnableIRQ RTC_IRQn =>
      {| COMP0 := COMP0 hw; CNT := CNT hw; CTRL_EN := CTRL_EN hw;
         CTRL_COMP0TOP := CTRL_COMP0TOP hw; IEN_COMP0 := IEN_COMP0 hw;
         IF_COMP0 := IF_COMP0 hw; pending := pending hw; unmasked := true |}
  | RTC_Init init =>
      {| COMP0 := COMP0 hw; CNT := if enable init then CNT hw else 0;
         CTRL_EN := enable init; CTRL_COMP0TOP := comp0Top init;
         IEN_COMP0 := IEN_COMP0 hw; IF_COMP0 := IF_COMP0 hw;
         pending := pending hw; unmasked := unmasked hw |}
  | _ => hw
  end.

Definition step (hw : t) (i : input) : t :=
  match i with
  | Call e => do_call hw e
  | Tick => tick hw
  end.

Definition run (hw : t) (inputs : list input) : t := replay step hw inputs.

(** The handler is entered: the interrupt is pending and unmasked. *)
Definition fires (hw : t) : bool := pending hw && unmasked hw.

(** The handler is entered neither before nor right after any of the
    inputs. *)
Definition quiet (hw : t) (inputs : list input) : bool :=
  negb (fires hw) && always step (fun s i => negb (fires (step s i))) hw inputs.

(** The calls [calls], with [lead k] clock cycles going by before the
    [k]-th of them. *)
Fixpoint weave (lead : nat -> nat) (k : nat) (calls : list event) : list input :=
  match calls with
  | [] => []
  | e :: calls' => repeat Tick (lead k) ++ Call e :: weave lead (S k) calls'
  end.

(** After a reset of the chip the counter is stopped at zero and its flag is
    clear; the interrupt line is masked. *)
Definition after_reset (hw : t) : Prop :=
  CTRL_EN hw = false /\ CNT hw = 0 /\ IF_COMP0 hw = false /\ unmasked hw = false.

(** The counter [n] cycles after it was started from zero with the compare
    value [c], the compare interrupt enabled and unmasked. *)
Definition counting (c : Z) (n : nat) : t :=
  {| COMP0 := c; CNT := Z.of_nat n; CTRL_EN := true; CTRL_COMP0TOP := true;
     IEN_COMP0 := true; IF_COMP0 := (Z.of_nat n =? c);
     pending := (Z.of_nat n =? c); unmasked := true |}.

(** A reset state in which an interrupt from before is still pending. *)
Definition stale_reset : t :=
  {| COMP0 := 0; CNT := 0; CTRL_EN := false; CTRL_COMP0TOP := false;
     IEN_COMP0 := false; IF_COMP0 := false; pending := true; unmasked := false |}.

End RTC.

Definition is_compare_set (e : event) : bool :=
  match e with RTC_CompareSet _ _ => true | _ => false end.

(** The integer that a [double] is, when it is one. *)
Definition integer_of_double (x : spec_float) : option Z :=
  match x with
  | S754_zero _ => Some 0
  | S754_finite s m e =>
      if 0 <=? e then Some (cond_Zopp s (Z.shiftl (Z.pos m) e))
      else if Z.pos m mod 2 ^ (- e) =? 0
           then Some (cond_Zopp s (Z.shiftr (Z.pos m) (- e)))
           else None
  | _ => None
  end.

(** The value of [triggered] at the end of a round. *)
Definition flag_after_round (DEBUGGING : bool) (raises : WakeEvent -> bool)
    (env : Env) (round : nat) : bool :=
  existsb raises
    (sleep_window DEBUGGING env round
     ++ [wake_irq env round] ++ loop_irq env round 213 ++ loop_irq env round 214).

(** What the foreground does in one round in which the test read [t]. *)
Definition round_shape (DEBUGGING : bool) (t : bool) : list event :=
  tick_part t ++ debug_part DEBUGGING ++ sleep_part ++ wake_part.

(** A run in which the accelerometer signals motion in round 0 after the
    flag was tested, while the SPI pins are being switched off. *)
Definition env_late_motion : Env :=
  {| core_clock := 14000000;
     systick_result := 0;
     boot_irq := fun _ => [];
     loop_irq := fun round line =>
       if ((round =? 0) && (line =? 209))%nat then [MotionDetected] else [];
     wake_irq := fun _ => TimerExpired |}.

(** A run without any interrupt but the timer that ends each sleep. *)
Definition env_quiet : Env :=
  {| core_clock := 14000000;
     systick_result := 0;
     boot_irq := fun _ => [];
     loop_irq := fun _ _ => [];
     wake_irq := fun _ => TimerExpired |}.

(** *** The boot sequence, as the foreground sees it *)

Definition initRTCcomp_calls : list event :=
  [CMU_OscillatorEnable cmuOsc_LFXO true true;
   CMU_ClockEnable cmuClock_HFLE true;
   CMU_ClockSelectSet cmuClock_LFA cmuSelect_LFXO;
   CMU_ClockEnable cmuClock_RTC true;
   RTC_CompareSet 0 (uint32_of_double COMPARE_RTC);
   RTC_IntEnable RTC_IEN_COMP0;
   NVIC_ClearPendingIRQ RTC_IRQn;
   NVIC_EnableIRQ RTC_IRQn;
   RTC_Init RTC_INIT_DEFAULT].

Definition initGPIOwakeup_calls : list event :=
  [CMU_ClockEnable cmuClock_GPIO true;
   GPIO_PinModeSet PB0_PORT PB0_PIN gpioModeInputPullFilter 1;
   GPIO_PinModeSet PB1_PORT PB1_PIN gpioModeInputPullFilter 1;
   GPIO_PinModeSet ADXL_INT1_PORT ADXL_INT1_PIN gpioModeInput 1;
   NVIC_EnableIRQ GPIO_EVEN_IRQn;
   NVIC_EnableIRQ GPIO_ODD_IRQn;
   GPIO_IntConfig PB0_PORT PB0_PIN false true true;
   GPIO_IntConfig PB1_PORT PB1_PIN false true true;
   GPIO_IntConfig ADXL_INT1_PORT ADXL_INT1_PIN true false true].

Definition sensor_boot_calls : list event :=
  [initADXL_VCC; initADXL_SPI; initLEDS; resetHandlerADXL;
   configADXL_range 1; configADXL_ODR 0; configADXL_activity 3;
   measureADXL true].

Definition main_init_calls (DEBUGGING : bool) : list event :=
  initRTCcomp_calls ++ initGPIOwakeup_calls
  ++ (if DEBUGGING then [dbprint_INIT USART1 4 true false] else [])
  ++ sensor_boot_calls
  ++ (if DEBUGGING then [dbprintln ""] else []).

(** The calls of line 131 and line 134. *)
Definition main_start_calls (env : Env) : list event :=
  [CHIP_Init; CMU_ClockFreqGet cmuClock_CORE;
   SysTick_Config ((core_clock env mod 2 ^ 32) / 1000)].

(** The lines of the boot sequence, in the order in which they run. *)
Definition init_lines (DEBUGGING : bool) : list nat :=
  ([95; 98; 101; 104; 107; 110; 111; 112; 118]
   ++ [65; 68; 69; 72; 75; 78; 81; 82; 85]
   ++ (if DEBUGGING then [143] else [])
   ++ [148; 151; 154; 157; 165; 168; 176; 184]
   ++ (if DEBUGGING then [187] else []))%nat.

(** The handlers that run during the boot sequence. *)
Definition boot_window (DEBUGGING : bool) (env : Env) : list WakeEvent :=
  flat_map (boot_irq env) ([131; 134]%nat ++ init_lines DEBUGGING).

(** [main] up to the loop, when [SysTick_Config] has returned 0. *)
Definition main_boot (DEBUGGING : bool) (raises : WakeEvent -> bool) (env : Env)
    : M unit :=
  boot_stmt raises env 131 CHIP_Init ;;
  boot_stmt raises env 134 (CMU_ClockFreqGet cmuClock_CORE) ;;
  call (SysTick_Config ((core_clock env mod 2 ^ 32) / 1000)) ;;
  main_init DEBUGGING raises env.

(** What the successive tests of line 198 read, from the given round on. *)
Fixpoint tests (DEBUGGING : bool) (raises : WakeEvent -> bool) (env : Env)
    (fuel round : nat) (t : bool) : list bool :=
  match fuel with
  | O => []
  | S fuel' =>
      (existsb raises (tick_window env round) || t)
      :: tests DEBUGGING raises env fuel' (S round)
           (flag_after_round DEBUGGING raises env round)
  end.

(** A run in which [SysTick_Config] reports a failure. *)
Definition env_systick_fails : Env :=
  {| core_clock := 14000000;
     systick_result := 1;
     boot_irq := fun _ => [];
     loop_irq := fun _ _ => [];
     wake_irq := fun _ => TimerExpired |}.

(** *** Runs written statement by statement

    A step is a statement together with the handlers that ran right before
    it; [play] is the run that a list of steps stands for. *)
Definition play (steps : list (list WakeEvent * event)) : list event :=
  flat_map (fun step => map Irq (fst step) ++ [snd step]) steps.

(** One round of the loop, in which the test of line 198 read [t]. *)
Definition round_steps (DEBUGGING : bool) (env : Env) (round : nat) (t : bool)
    : list (list WakeEvent * event) :=
  [(loop_irq env round 192, led0 true);
   (loop_irq env round 193, Delay 1000);
   (loop_irq env round 194, led0 false);
   (loop_irq env round 198, ReadTriggered t)]
  ++ (if t then [(loop_irq env round 200, readADXL ADXL_REG_STATUS);
                 (loop_irq env round 201, WriteTriggered false)]
      else [])
  ++ (if DEBUGGING
      then [(loop_irq env round 205,
             dbinfo sleep_message)]
      else [])
  ++ [(loop_irq env round 208, systickInterrupts false);
      (loop_irq env round 209, enableSPIpinsADXL false);
      (loop_irq env round 211, EMU_EnterEM2 false);
      (wake_irq env round :: loop_irq env round 213, enableSPIpinsADXL true);
      (loop_irq env round 214, systickInterrupts true)].

(** The flag monitor, step by step. *)
Fixpoint flag_play (raises : WakeEvent -> bool) (t : bool)
    (steps : list (list WakeEvent * event)) : bool :=
  match steps with
  | [] => t
  | step :: steps' =>
      flag_play raises
        (flag_next raises (existsb raises (fst step) || t) (snd step)) steps'
  end.

Fixpoint sleep_play (raises : WakeEvent -> bool) (t : bool)
    (steps : list (list WakeEvent * event)) : bool :=
  match steps with
  | [] => true
  | step :: steps' =>
      sleep_ok (existsb raises (fst step) || t) (snd step)
      && sleep_play raises
           (flag_next raises (existsb raises (fst step) || t) (snd step)) steps'
  end.

(** Straight-line code: it returns, its calls are [calls] whatever the flag
    is, and it leaves the flag raised when it was raised before or when one
    of the handlers [ws] that ran meanwhile raised it. *)
Definition straight (raises : WakeEvent -> bool) (m : M unit)
    (calls : list event) (ws : list WakeEvent) : Prop :=
  forall t, result (m t) = Some tt
            /\ foreground (trace (m t)) = calls
            /\ flag (m t) = existsb raises ws || t.

(** ** More readings of a run *)

(** The values that the tests of line 198 read, in order. *)
Definition reads (tr : list event) : list bool :=
  flat_map (fun e => match e with ReadTriggered v => [v] | _ => [] end) tr.

Definition is_sleep (e : event) : bool :=
  match e with EMU_EnterEM2 _ => true | _ => false end.

Definition is_flag_write (e : event) : bool :=
  match e with WriteTriggered _ => true | _ => false end.

(** The handlers that run in a round after the flag was tested (and
    cleared): before the sleep, the one that ends it, and after it. *)
Definition after_test_window (DEBUGGING : bool) (env : Env) (round : nat)
    : list WakeEvent :=
  sleep_window DEBUGGING env round
  ++ [wake_irq env round] ++ loop_irq env round 213 ++ loop_irq env round 214.

(** The handlers whose effect the [k]-th test can see: those of the boot
    sequence and of the first tick for the first test, those since the
    previous test (and clear) for the others. *)
Definition seen_by_test (DEBUGGING : bool) (env : Env) (k : nat) : list WakeEvent :=
  match k with
  | O => boot_window DEBUGGING env ++ tick_window env 0
  | S j => after_test_window DEBUGGING env j ++ tick_window env k
  end.

(** The environment in which no handler runs between the flag test and the
    clear (right before lines 200 and 201). *)
Definition drop_ack_window (env : Env) : Env :=
  {| core_clock := core_clock env;
     systick_result := systick_result env;
     boot_irq := boot_irq env;
     loop_irq := fun round line =>
       if ((line =? 200) || (line =? 201))%nat then [] else loop_irq env round line;
     wake_irq := wake_irq env |}.

(** The environment in which every interrupt comes from the source [f w]
    instead of [w]. *)
Definition rename_sources (f : WakeEvent -> WakeEvent) (env : Env) : Env :=
  {| core_clock := core_clock env;
     systick_result := systick_result env;
     boot_irq := fun line => map f (boot_irq env line);
     loop_irq := fun round line => map f (loop_irq env round line);
     wake_irq := fun round => f (wake_irq env round) |}.

(** What the loop switches: the LED, the SysTick interrupts and the SPI
    pins. *)
Record Switches := { led_on : bool; systick_on : bool; pins_on : bool }.

Definition switches_next (s : Switches) (e : event) : Switches :=
  match e with
  | led0 on => {| led_on := on; systick_on := systick_on s; pins_on := pins_on s |}
  | systickInterrupts on =>
      {| led_on := led_on s; systick_on := on; pins_on := pins_on s |}
  | enableSPIpinsADXL on =>
      {| led_on := led_on s; systick_on := systick_on s; pins_on := on |}
  | _ => s
  end.

(** The sleep is entered with everything switched off; the delay, which
    counts SysTick interrupts, runs with them switched on. *)
Definition switches_ok (s : Switches) (e : event) : bool :=
  match e with
  | EMU_EnterEM2 _ => negb (led_on s) && negb (systick_on s) && negb (pins_on s)
  | Delay _ => systick_on s
  | _ => true
  end.

(** A run with two button presses during boot and a motion interrupt that
    ends the first sleep. *)
Definition env_busy : Env :=
  {| core_clock := 14000000;
     systick_result := 0;
     boot_irq := fun line => if (line =? 157)%nat then [ButtonPressed PB0; ButtonPressed PB1] else [];
     loop_irq := fun round line =>
       if ((round =? 1) && (line =? 201))%nat then [MotionDetected] else [];
     wake_irq := fun round => if (round =? 0)%nat then MotionDetected else TimerExpired |}.

(** Handlers of which only the motion handler raises the flag. *)
Definition motion_raises (w : WakeEvent) : bool :=
  match w with MotionDetected => true | _ => false end.

(** ** More readings of the hardware *)

(** The GPIO lines that request an interrupt: pending and enabled. *)
Definition GPIO_requests (hw : GPIO.t) : Z := Z.land (GPIO.IFLAGS hw) (GPIO.IEN hw).

(** The reset state of the GPIO block, but with all sixteen lines pending. *)
Definition GPIO_stale_reset : GPIO.t :=
  {| GPIO.MODE := ∅; GPIO.DOUT := ∅; GPIO.EXTIPSEL := ∅; GPIO.EXTIRISE := 0;
     GPIO.EXTIFALL := 0; GPIO.IFLAGS := 65535; GPIO.IEN := 0; GPIO.ISER := ∅ |}.

(** The GPIO block with the interrupt controller, and the real-time
    counter, side by side: each call acts on both. *)
Definition peripherals_step (s : GPIO.t * RTC.t) (e : event) : GPIO.t * RTC.t :=
  (GPIO.step (fst s) e, RTC.do_call (snd s) e).

(** The wake sources are set up: the three lines of the interrupt controller
    are unmasked; both button lines are filtered inputs, routed, enabled and
    armed for the falling edge; the motion line is an input, routed, enabled
    and armed for the rising edge only; the compare interrupt of the counter
    is enabled and unmasked and the counter runs. *)
Definition wake_ready (s : GPIO.t * RTC.t) : bool :=
  GPIO.unmasked (fst s) RTC_IRQn
  && GPIO.unmasked (fst s) GPIO_EVEN_IRQn
  && GPIO.unmasked (fst s) GPIO_ODD_IRQn
  && GPIO.button_armed (fst s) PB0_PORT PB0_PIN
  && GPIO.button_armed (fst s) PB1_PORT PB1_PIN
  && GPIO.motion_armed (fst s) true
  && RTC.IEN_COMP0 (snd s) && RTC.unmasked (snd s) && RTC.CTRL_EN (snd s).

Definition sleep_ready (s : GPIO.t * RTC.t) (e : event) : bool :=
  if is_sleep e then wake_ready s else true.

(** [COMPARE_RTC] for a delay of [seconds] whole seconds in the place of
    [DELAY_RTC]. *)
Definition COMPARE_RTC_for (seconds : Z) : spec_float :=
  SFmul 53 1024 (double_of_int seconds) (double_of_int LFXOFREQ).

(** The delay fits: the product is exact, survives the conversion to
    [uint32_t] and fits the 24 bits of the compare register. *)
Definition delay_fits (seconds : Z) : bool :=
  (uint32_of_double (COMPARE_RTC_for seconds) =? seconds * LFXOFREQ)
  && match integer_of_double (COMPARE_RTC_for seconds) with
     | Some z => z =? seconds * LFXOFREQ
     | None => false
     end
  && (Z.land (seconds * LFXOFREQ) RTC.COMP0_MASK =? seconds * LFXOFREQ).

(** * Proofs *)

(** ** Monitors and projections *)

Section MonitorFacts.
Context {E S : Type}.
Variable next : S -> E -> S.
Variable ok : S -> E -> bool.

Lemma replay_app (s : S) (tr1 tr2 : list E) :
  replay next s (tr1 ++ tr2) = replay next (replay next s tr1) tr2.
Proof. revert s. induction tr1 as [|e tr1 IH]; intros s; simpl; auto. Qed.

Lemma always_app (s : S) (tr1 tr2 : list E) :
  always next ok s (tr1 ++ tr2)
  = always next ok s tr1 && always next ok (replay next s tr1) tr2.
Proof.
  revert s. induction tr1 as [|e tr1 IH]; intros s; simpl.
  - reflexivity.
  - rewrite IH. now rewrite andb_assoc.
Qed.
End MonitorFacts.

Lemma foreground_app (tr1 tr2 : list event) :
  foreground (tr1 ++ tr2) = foreground tr1 ++ foreground tr2.
Proof. apply List.filter_app. Qed.

Lemma foreground_irqs (ws : list WakeEvent) : foreground (map Irq ws) = [].
Proof. induction ws as [|w ws IH]; simpl; auto. Qed.

Lemma core_app (tr1 tr2 : list event) : core (tr1 ++ tr2) = core tr1 ++ core tr2.
Proof. apply List.filter_app. Qed.

Lemma core_irqs (ws : list WakeEvent) : core (map Irq ws) = map Irq ws.
Proof. induction ws as [|w ws IH]; simpl; [reflexivity | f_equal; exact IH]. Qed.

(** A monitor that the handlers neither move nor offend sees the foreground
    only. *)
Section Deaf.
Context {S : Type}.
Variable next : S -> event -> S.
Variable ok : S -> event -> bool.
Hypothesis next_irq : forall s w, next s (Irq w) = s.
Hypothesis ok_irq : forall s w, ok s (Irq w) = true.

Lemma replay_foreground (s : S) (tr : list event) :
  replay next s (foreground tr) = replay next s tr.
Proof using next_irq.
  revert s. induction tr as [|e tr IH]; intros s; simpl; [reflexivity|].
  destruct e; simpl; rewrite ?next_irq; apply IH.
Qed.

Lemma always_foreground (s : S) (tr : list event) :
  always next ok s (foreground tr) = always next ok s tr.
Proof using next_irq ok_irq.
  revert s. induction tr as [|e tr IH]; intros s; simpl; [reflexivity|].
  destruct e; simpl; rewrite ?next_irq, ?ok_irq, ?IH; reflexivity.
Qed.
End Deaf.

(** ** Running the monad *)

Lemma or_step {A} (f : A -> bool) (ws acc : list A) (t : bool) :
  existsb f ws || (existsb f acc || t) = existsb f (acc ++ ws) || t.
Proof.
  rewrite existsb_app.
  destruct (existsb f ws), (existsb f acc), t; reflexivity.
Qed.

Lemma or_one {A} (f : A -> bool) (w : A) (acc : list A) (t : bool) :
  f w || (existsb f acc || t) = existsb f (acc ++ [w]) || t.
Proof. rewrite <- or_step. simpl. now rewrite orb_false_r. Qed.

Lemma bind_run {A B} (m : M A) (k : A -> M B) (t : bool) (a : A) :
  result (m t) = Some a ->
  bind m k t = (result (k a (flag (m t))), flag (k a (flag (m t))),
                trace (m t) ++ trace (k a (flag (m t)))).
Proof.
  unfold bind, result, flag, trace.
  destruct (m t) as [[o t1] tr1]; simpl. intros ->.
  destruct (k a t1) as [[b t2] tr2]; reflexivity.
Qed.

Lemma forever_result {A} (body : nat -> M unit) (fuel round : nat) (t : bool) :
  result (forever (A := A) fuel round body t) = None.
Proof.
  revert round t. induction fuel as [|fuel IH]; intros round t; simpl.
  - reflexivity.
  - unfold bind. destruct (body round t) as [[[[]|] t1] tr1]; [|reflexivity].
    specialize (IH (S round) t1).
    destruct (forever fuel (S round) body t1) as [[b t2] tr2]. exact IH.
Qed.

(** The empty loop [while (1);] does nothing, for ever. *)
Lemma spin_run {A} (fuel round : nat) (t : bool) :
  forever (A := A) fuel round (fun _ => ret tt) t = (None, t, []).
Proof.
  revert round. induction fuel as [|fuel IH]; intros round; simpl.
  - reflexivity.
  - unfold bind, ret. now rewrite IH.
Qed.

Section Runs.
Variable DEBUGGING : bool.
Variable raises : WakeEvent -> bool.
Variable env : Env.

Lemma interrupts_run (ws : list WakeEvent) (t : bool) :
  interrupts raises ws t = (Some tt, existsb raises ws || t, map Irq ws).
Proof. reflexivity. Qed.

(** [interrupts] runs the handlers one after the other. *)
Lemma interrupts_nil (t : bool) : interrupts raises [] t = ret tt t.
Proof. reflexivity. Qed.

Lemma interrupts_cons (w : WakeEvent) (ws : list WakeEvent) (t : bool) :
  interrupts raises (w :: ws) t = (interrupt raises w ;; interrupts raises ws) t.
Proof.
  unfold bind, interrupt, interrupts. simpl.
  f_equal. f_equal. destruct (raises w), (existsb raises ws), t; reflexivity.
Qed.

Lemma flag_replay_irqs (ws : list WakeEvent) (t : bool) :
  replay (flag_next raises) t (map Irq ws) = existsb raises ws || t.
Proof.
  revert t. induction ws as [|w ws IH]; intros t; simpl; [reflexivity|].
  rewrite IH. destruct (raises w), (existsb raises ws), t; reflexivity.
Qed.

Lemma flag_always_irqs (ws : list WakeEvent) (t : bool) :
  always (flag_next raises) sleep_ok t (map Irq ws) = true.
Proof. revert t. induction ws as [|w ws IH]; intros t; simpl; auto. Qed.

End Runs.

(** Symbolic execution of straight-line code. *)
Ltac run_code :=
  cbv beta iota delta [boot_stmt loop_stmt ifdef_DEBUGGING read_triggered
    write_triggered call interrupt interrupts ret bind].

(** Equations between disjunctions of "some handler raised the flag". *)
Ltac bool_cases :=
  cbn [app]; repeat (progress (rewrite ?existsb_app; cbn [existsb]));
  repeat match goal with |- context [existsb ?f ?l] => destruct (existsb f l) end;
  repeat match goal with
         | |- context [?f (wake_irq ?e ?r)] => destruct (f (wake_irq e r))
         end;
  try match goal with |- context [orb _ ?t] => is_var t; destruct t end;
  reflexivity.

Ltac fg_cases := rewrite ?foreground_app, ?foreground_irqs; reflexivity.


(** ** One round of the loop *)

Section Play.
Variable raises : WakeEvent -> bool.

Lemma replay_play (t : bool) (steps : list (list WakeEvent * event)) :
  replay (flag_next raises) t (play steps) = flag_play raises t steps.
Proof.
  revert t. induction steps as [|[ws e] steps IH]; intros t; [reflexivity|].
  cbn [play flat_map flag_play fst snd].
  rewrite !replay_app, flag_replay_irqs. apply IH.
Qed.

Lemma always_play (t : bool) (steps : list (list WakeEvent * event)) :
  always (flag_next raises) sleep_ok t (play steps) = sleep_play raises t steps.
Proof.
  revert t. induction steps as [|[ws e] steps IH]; intros t; [reflexivity|].
  cbn [play flat_map sleep_play fst snd].
  rewrite !always_app, !replay_app, flag_always_irqs, flag_replay_irqs.
  cbn [always replay andb]. rewrite andb_true_r. f_equal. apply IH.
Qed.

Lemma foreground_play (steps : list (list WakeEvent * event)) :
  forallb (fun step => negb (is_irq (snd step))) steps = true ->
  foreground (play steps) = map snd steps.
Proof.
  induction steps as [|[ws e] steps IH]; [reflexivity|].
  cbn [forallb play flat_map map fst snd]. intros H.
  apply andb_prop in H as [He Hs].
  rewrite !foreground_app, foreground_irqs. fold (play steps). rewrite (IH Hs).
  cbn. now rewrite He.
Qed.
End Play.

Section Round.
Variable DEBUGGING : bool.
Variable raises : WakeEvent -> bool.
Variable env : Env.

Lemma loop_body_run (round : nat) (t : bool) :
  let b := existsb raises (tick_window env round) || t in
  loop_body DEBUGGING raises env round t
  = (Some tt, flag_after_round DEBUGGING raises env round,
     play (round_steps DEBUGGING env round b)).
Proof.
  intros b. unfold loop_body. run_code.
  assert (Hb : existsb raises (loop_irq env round 198)
     || (existsb raises (loop_irq env round 194)
         || (existsb raises (loop_irq env round 193)
             || (existsb raises (loop_irq env round 192) || t))) = b).
  { unfold b, tick_window. rewrite !or_step, <- ?app_assoc; reflexivity. }
  rewrite Hb. clearbody b. clear Hb.
  unfold flag_after_round, sleep_window.
  destruct b, DEBUGGING; run_code; (f_equal; [f_equal|]); try reflexivity.
  1,3,5,7: repeat (rewrite or_step || rewrite or_one); rewrite ?orb_false_r; cbn [app]; rewrite <- ?app_assoc; reflexivity.
  all: unfold play; cbn [round_steps flat_map app fst snd map]; rewrite <- ?app_assoc; cbn [app]; rewrite ?app_nil_r; reflexivity.
Qed.

Lemma loop_body_spec (round : nat) (t : bool) :
  let b := existsb raises (tick_window env round) || t in
  let r := loop_body DEBUGGING raises env round t in
  result r = Some tt
  /\ flag r = flag_after_round DEBUGGING raises env round
  /\ foreground (trace r) = round_shape DEBUGGING b
  /\ replay (flag_next raises) t (trace r) = flag r
  /\ sleeps_with_flag_clear raises t (trace r)
     = negb (existsb raises (sleep_window DEBUGGING env round)).
Proof.
  intros b r. unfold r. rewrite loop_body_run. fold b.
  cbn [result flag trace fst snd].
  split; [reflexivity|]. split; [reflexivity|].
  assert (Hb : existsb raises (tick_window env round) || t = b) by reflexivity.
  clearbody b. unfold tick_window in Hb. rewrite <- !or_step in Hb.
  split; [|split].
  - rewrite foreground_play; destruct b, DEBUGGING; reflexivity.
  - rewrite replay_play. unfold flag_after_round, sleep_window.
    destruct b, DEBUGGING; cbn [round_steps app flag_play flag_next fst snd];
      rewrite ?Hb; bool_cases.
  - unfold sleeps_with_flag_clear. rewrite always_play. unfold sleep_window.
    destruct b, DEBUGGING;
      cbn [round_steps app sleep_play sleep_ok flag_next fst snd andb];
      rewrite ?Hb, ?andb_true_r; bool_cases.
Qed.
Lemma loop_body_result (round : nat) (t : bool) :
  result (loop_body DEBUGGING raises env round t) = Some tt.
Proof. apply loop_body_spec. Qed.

Lemma loop_body_foreground (round : nat) (t : bool) :
  foreground (trace (loop_body DEBUGGING raises env round t))
  = round_shape DEBUGGING (existsb raises (tick_window env round) || t).
Proof. apply loop_body_spec. Qed.

(** Unfolding the loop by one round. *)
Lemma main_loop_step {A} (fuel round : nat) (t : bool) :
  let r := loop_body DEBUGGING raises env round t in
  forever (A := A) (S fuel) round (loop_body DEBUGGING raises env) t
  = (None,
     flag (forever (A := A) fuel (S round) (loop_body DEBUGGING raises env) (flag r)),
     trace r
     ++ trace (forever (A := A) fuel (S round) (loop_body DEBUGGING raises env) (flag r))).
Proof.
  intros r. cbn [forever].
  rewrite (bind_run _ _ t tt (loop_body_result round t)).
  now rewrite forever_result.
Qed.

Lemma status_reads_of_round (b : bool) :
  length (List.filter is_status_read (round_shape DEBUGGING b))
  = if b then 1%nat else 0%nat.
Proof. destruct b, DEBUGGING; reflexivity. Qed.

Lemma filter_foreground (p : event -> bool) (tr : list event) :
  (forall w, p (Irq w) = false) ->
  List.filter p (foreground tr) = List.filter p tr.
Proof.
  intros Hp. induction tr as [|e tr IH]; simpl; [reflexivity|].
  destruct e; simpl; rewrite ?Hp, ?IH; reflexivity.
Qed.

End Round.

(** C1. In each round of the main loop the foreground first indicates
    liveness (LED on, delay, LED off) and then tests the Event Flag once;
    what it reads is the incoming flag or-ed with what the handlers that ran
    during the tick raised.  If it reads the flag set it performs exactly one
    read of the status register and then clears the flag, and only then come
    the sleep transition and the wake-up; if it reads the flag clear the
    round performs no status read.  The store does clear the flag: the flag
    of the code is the one that the logged handlers and stores account for,
    and at the sleep entry and at the end of the round it is set only if a
    handler raised it after the test, whatever the test read. *)
Theorem C1_tick_then_test_then_acknowledge
    (DEBUGGING : bool) (raises : WakeEvent -> bool) (env : Env)
    (round : nat) (t : bool) :
  let r := loop_body DEBUGGING raises env round t in
  let b := existsb raises (tick_window env round) || t in
  result r = Some tt
  /\ foreground (trace r)
     = [led0 true; Delay 1000; led0 false; ReadTriggered b]
       ++ (if b then [readADXL ADXL_REG_STATUS; WriteTriggered false] else [])
       ++ debug_part DEBUGGING
       ++ [systickInterrupts false; enableSPIpinsADXL false; EMU_EnterEM2 false;
           enableSPIpinsADXL true; systickInterrupts true]
  /\ length (List.filter is_status_read (trace r)) = (if b then 1 else 0)%nat
  /\ replay (flag_next raises) t (trace r) = flag r
  /\ sleeps_with_flag_clear raises t (trace r)
     = negb (existsb raises (sleep_window DEBUGGING env round))
  /\ flag r
     = existsb raises
         (sleep_window DEBUGGING env round
          ++ [wake_irq env round]
          ++ loop_irq env round 213 ++ loop_irq env round 214).
Proof.
  intros r b.
  destruct (loop_body_spec DEBUGGING raises env round t)
    as (Hres & Hflag & Hfg & Hreplay & Hsleep).
  fold r in Hres, Hflag, Hfg, Hreplay, Hsleep. fold b in Hfg.
  split; [exact Hres|]. split; [|split; [|split; [|split]]].
  - rewrite Hfg. unfold round_shape, tick_part, sleep_part, wake_part.
    now rewrite <- !app_assoc.
  - rewrite <- filter_foreground by reflexivity.
    rewrite Hfg. apply status_reads_of_round.
  - exact Hreplay.
  - exact Hsleep.
  - exact Hflag.
Qed.

(** ** The endless loop *)

Section Loop.
Variable DEBUGGING : bool.
Variable raises : WakeEvent -> bool.
Variable env : Env.

Local Abbreviation body := (loop_body DEBUGGING raises env).

(** The foreground of a run of the loop is a sequence of rounds. *)
Lemma main_loop_foreground (fuel round : nat) (t : bool) :
  exists bs : list bool,
    length bs = fuel
    /\ foreground (trace (forever (A := Z) fuel round body t))
       = concat (map (round_shape DEBUGGING) bs).
Proof.
  revert round t. induction fuel as [|fuel IH]; intros round t.
  - exists []. split; reflexivity.
  - rewrite main_loop_step. cbn [trace snd].
    destruct (IH (S round) (flag (loop_body DEBUGGING raises env round t)))
      as (bs & Hlen & Hbs).
    exists ((existsb raises (tick_window env round) || t) :: bs). split.
    + simpl. now rewrite Hlen.
    + rewrite foreground_app, loop_body_foreground. now rewrite Hbs.
Qed.

(** The flag along a run of the loop is the flag of the code. *)
Lemma main_loop_sleeps (fuel round : nat) (t : bool) :
  sleeps_with_flag_clear raises t (trace (forever (A := Z) fuel round body t))
  = forallb (fun k => negb (existsb raises (sleep_window DEBUGGING env k)))
            (seq round fuel).
Proof.
  revert round t. induction fuel as [|fuel IH]; intros round t.
  - reflexivity.
  - rewrite main_loop_step. cbn [trace snd seq forallb].
    unfold sleeps_with_flag_clear in *. rewrite always_app.
    destruct (loop_body_spec DEBUGGING raises env round t)
      as (_ & _ & _ & Hflag & Hsleep).
    unfold sleeps_with_flag_clear in Hsleep. rewrite Hsleep, Hflag.
    now rewrite IH.
Qed.

Lemma round_shape_bus (b : bool) :
  bus_only_with_pins true (round_shape DEBUGGING b) = true
  /\ replay pins_next true (round_shape DEBUGGING b) = true.
Proof. destruct b, DEBUGGING; split; reflexivity. Qed.

Lemma rounds_bus (bs : list bool) :
  bus_only_with_pins true (concat (map (round_shape DEBUGGING) bs)) = true
  /\ replay pins_next true (concat (map (round_shape DEBUGGING) bs)) = true.
Proof.
  induction bs as [|b bs [IH1 IH2]]; [split; reflexivity|].
  cbn [map concat]. unfold bus_only_with_pins in *.
  destruct (round_shape_bus b) as [H1 H2]. unfold bus_only_with_pins in H1.
  rewrite always_app, replay_app, H1, H2, IH1, IH2. split; reflexivity.
Qed.

Lemma bus_foreground (pins : bool) (tr : list event) :
  bus_only_with_pins pins (foreground tr) = bus_only_with_pins pins tr.
Proof. apply always_foreground; reflexivity. Qed.

Lemma pins_foreground (pins : bool) (tr : list event) :
  replay pins_next pins (foreground tr) = replay pins_next pins tr.
Proof. apply replay_foreground; reflexivity. Qed.

Lemma main_loop_bus (fuel : nat) (t : bool) :
  bus_only_with_pins true (trace (forever (A := Z) fuel 0 body t)) = true.
Proof.
  destruct (main_loop_foreground fuel 0 t) as (bs & _ & Hbs).
  rewrite <- bus_foreground, Hbs. apply rounds_bus.
Qed.

End Loop.

(** C2. A run of the main loop is a sequence of rounds.  Each round is an
    active part, which begins with the liveness tick and contains no
    operation of a power transition, followed by exactly: SysTick interrupts
    off, SPI pins off, enter EM2, and (once the sleep call has returned) SPI
    pins on, SysTick interrupts on.  After that the next round begins with
    the tick, or the run has not gone further. *)
Theorem C2_sleep_and_wake_order
    (DEBUGGING : bool) (raises : WakeEvent -> bool) (env : Env)
    (fuel : nat) (t : bool) :
  exists actives : list (list event),
    length actives = fuel
    /\ foreground (trace (main_loop DEBUGGING raises env fuel t))
       = concat (map (fun active =>
           active
           ++ [systickInterrupts false; enableSPIpinsADXL false; EMU_EnterEM2 false]
           ++ [enableSPIpinsADXL true; systickInterrupts true]) actives)
    /\ Forall (fun active =>
                 hd_error active = Some (led0 true)
                 /\ forallb (fun e => negb (is_power_transition e)) active = true)
              actives.
Proof.
  destruct (main_loop_foreground DEBUGGING raises env fuel 0 t) as (bs & Hlen & Hbs).
  exists (map (fun b => tick_part b ++ debug_part DEBUGGING) bs).
  split; [now rewrite length_map|]. split.
  - unfold main_loop. rewrite Hbs, map_map. f_equal. apply map_ext. intros b.
    unfold round_shape, sleep_part, wake_part. now rewrite <- app_assoc.
  - clear. induction bs as [|b bs IH]; constructor; [|exact IH].
    destruct b, DEBUGGING; split; reflexivity.
Qed.

(** ** The boot sequence *)

Lemma bind_assoc {A B C} (m : M A) (k : A -> M B) (h : B -> M C) (t : bool) :
  bind (bind m k) h t = bind m (fun a => bind (k a) h) t.
Proof.
  unfold bind. destruct (m t) as [[[a|] t1] tr1]; [|reflexivity].
  destruct (k a t1) as [[[b|] t2] tr2]; [|reflexivity].
  destruct (h b t2) as [[c t3] tr3]. now rewrite app_assoc.
Qed.

Lemma bind_ret_l {A B} (a : A) (k : A -> M B) (t : bool) :
  bind (ret a) k t = k a t.
Proof. unfold bind, ret. now destruct (k a t) as [[b t2] tr2]. Qed.

Lemma bind_ext {A B} (m : M A) (k1 k2 : A -> M B) (t : bool) :
  (forall a t', k1 a t' = k2 a t') -> bind m k1 t = bind m k2 t.
Proof.
  intros H. unfold bind. destruct (m t) as [[[a|] t1] tr1]; [|reflexivity].
  now rewrite H.
Qed.

Section Straight.
Variable raises : WakeEvent -> bool.

Lemma straight_ret : straight raises (ret tt) [] [].
Proof. intros t. repeat split. Qed.

Lemma straight_call (e : event) : is_irq e = false -> straight raises (call e) [e] [].
Proof. intros He t. unfold call. cbn. rewrite He. repeat split. Qed.

Lemma straight_interrupts (ws : list WakeEvent) :
  straight raises (interrupts raises ws) [] ws.
Proof.
  intros t. rewrite interrupts_run. cbn. rewrite foreground_irqs. repeat split.
Qed.

Lemma straight_bind (m k : M unit) (c1 c2 : list event) (w1 w2 : list WakeEvent) :
  straight raises m c1 w1 -> straight raises k c2 w2 -> straight raises (m ;; k) (c1 ++ c2) (w1 ++ w2).
Proof.
  intros Hm Hk t. destruct (Hm t) as (R1 & F1 & T1).
  rewrite (bind_run _ _ t tt R1). cbn [result flag trace fst snd].
  destruct (Hk (flag (m t))) as (R2 & F2 & T2).
  rewrite foreground_app, F1, F2, R2, T2, T1.
  split; [reflexivity|]. split; [reflexivity|]. apply or_step.
Qed.

Lemma straight_boot_stmt (env : Env) (line : nat) (e : event) :
  is_irq e = false ->
  straight raises (boot_stmt raises env line e) [e] (boot_irq env line).
Proof.
  intros He. unfold boot_stmt.
  pose proof (straight_bind _ _ _ _ _ _
                (straight_interrupts (boot_irq env line)) (straight_call e He)) as H.
  now rewrite app_nil_r in H.
Qed.

Lemma straight_ifdef (D : bool) (m : M unit) (c : list event) (w : list WakeEvent) :
  straight raises m c w ->
  straight raises (ifdef_DEBUGGING D m) (if D then c else []) (if D then w else []).
Proof. intros H. destruct D; [exact H | apply straight_ret]. Qed.

Lemma straight_eq (m : M unit) (c c' : list event) (w w' : list WakeEvent) :
  straight raises m c w -> c = c' -> w = w' -> straight raises m c' w'.
Proof. now intros H <- <-. Qed.

End Straight.

Ltac straight_code_with known :=
  repeat first [ apply known
               | apply straight_boot_stmt; reflexivity
               | apply straight_ifdef
               | apply straight_call; reflexivity
               | apply straight_bind ].

Ltac straight_code := straight_code_with straight_ret.

Section Boot.
Variable DEBUGGING : bool.
Variable raises : WakeEvent -> bool.
Variable env : Env.

Lemma main_init_straight :
  straight raises (main_init DEBUGGING raises env)
    (main_init_calls DEBUGGING) (flat_map (boot_irq env) (init_lines DEBUGGING)).
Proof.
  unfold main_init, initRTCcomp, initGPIOwakeup.
  eapply straight_eq; [straight_code | |];
    destruct DEBUGGING; cbn [init_lines flat_map app];
    rewrite ?app_nil_r, <- ?app_assoc; reflexivity.
Qed.

Lemma main_boot_straight :
  straight raises (main_boot DEBUGGING raises env)
    (main_start_calls env ++ main_init_calls DEBUGGING)
    (boot_window DEBUGGING env).
Proof.
  unfold main_boot.
  eapply straight_eq; [straight_code_with main_init_straight | |].
  - reflexivity.
  - unfold boot_window. cbn [app flat_map]. now rewrite <- ?app_assoc.
Qed.

Lemma main_boot_spec (t : bool) :
  let r := main_boot DEBUGGING raises env t in
  result r = Some tt
  /\ foreground (trace r) = main_start_calls env ++ main_init_calls DEBUGGING
  /\ flag r = existsb raises (boot_window DEBUGGING env) || t.
Proof. apply main_boot_straight. Qed.

(** When [SysTick_Config] returns 0, [main] is the boot sequence followed by
    the loop. *)
Lemma main_split (fuel : nat) (t : bool) :
  systick_result env = 0 ->
  main DEBUGGING raises env fuel t
  = bind (main_boot DEBUGGING raises env)
         (fun _ => main_loop DEBUGGING raises env fuel) t.
Proof.
  intros Hok. unfold main, main_boot. rewrite Hok. cbn [Z.eqb negb].
  rewrite bind_assoc. apply bind_ext. intros _ t1.
  rewrite bind_assoc. apply bind_ext. intros _ t2.
  rewrite bind_assoc. apply bind_ext. intros _ t3.
  now rewrite bind_ret_l.
Qed.

Lemma main_run (fuel : nat) (t : bool) :
  systick_result env = 0 ->
  let t0 := existsb raises (boot_window DEBUGGING env) || t in
  main DEBUGGING raises env fuel t
  = (None,
     flag (main_loop DEBUGGING raises env fuel t0),
     trace (main_boot DEBUGGING raises env t)
     ++ trace (main_loop DEBUGGING raises env fuel t0)).
Proof.
  intros Hok t0. rewrite main_split by assumption.
  destruct (main_boot_spec t) as (Hres & _ & Hflag).
  rewrite (bind_run _ _ t tt Hres), Hflag.
  unfold main_loop. now rewrite forever_result.
Qed.

(** When [SysTick_Config] fails, [main] stays in the empty loop of
    line 134. *)
Lemma main_hang (fuel : nat) (t : bool) :
  systick_result env <> 0 ->
  let t0 := existsb raises (boot_irq env 131 ++ boot_irq env 134) || t in
  main DEBUGGING raises env fuel t
  = (None, t0,
     (map Irq (boot_irq env 131) ++ [CHIP_Init])
     ++ (map Irq (boot_irq env 134) ++ [CMU_ClockFreqGet cmuClock_CORE])
     ++ [SysTick_Config ((core_clock env mod 2 ^ 32) / 1000)] ++ []).
Proof.
  intros Hfail t0. unfold main.
  apply Z.eqb_neq in Hfail. rewrite Hfail. cbn [negb].
  run_code. rewrite spin_run. unfold t0. now rewrite or_step.
Qed.

End Boot.

(** ** The whole program *)

Section Whole.
Variable DEBUGGING : bool.
Variable raises : WakeEvent -> bool.
Variable env : Env.

Lemma main_init_foreground (t : bool) :
  foreground (trace (main_init DEBUGGING raises env t)) = main_init_calls DEBUGGING.
Proof. apply main_init_straight. Qed.

Lemma main_loop_tests (fuel round : nat) (t : bool) :
  foreground (trace (forever (A := Z) fuel round (loop_body DEBUGGING raises env) t))
  = concat (map (round_shape DEBUGGING) (tests DEBUGGING raises env fuel round t)).
Proof.
  revert round t. induction fuel as [|fuel IH]; intros round t.
  - reflexivity.
  - rewrite main_loop_step. cbn [trace snd tests map concat].
    rewrite foreground_app, loop_body_foreground, IH.
    destruct (loop_body_spec DEBUGGING raises env round t) as (_ & -> & _).
    reflexivity.
Qed.

(** The foreground of the whole program. *)
Lemma main_foreground (fuel : nat) (t : bool) :
  foreground (trace (main DEBUGGING raises env fuel t))
  = main_start_calls env
    ++ (if systick_result env =? 0
        then main_init_calls DEBUGGING
             ++ concat (map (round_shape DEBUGGING)
                  (tests DEBUGGING raises env fuel 0
                     (existsb raises (boot_window DEBUGGING env) || t)))
        else []).
Proof.
  destruct (Z.eqb_spec (systick_result env) 0) as [Hok|Hfail].
  - rewrite main_run by assumption. cbn [trace snd].
    destruct (main_boot_spec DEBUGGING raises env t) as (_ & Hfg & _).
    rewrite foreground_app, Hfg. unfold main_loop.
    now rewrite main_loop_tests, <- app_assoc.
  - rewrite main_hang by assumption. cbn [trace snd]. fg_cases.
Qed.

Lemma round_shape_config (s : bool * bool) (b : bool) :
  always adxl_next config_ok s (round_shape DEBUGGING b) = true
  /\ replay adxl_next s (round_shape DEBUGGING b) = s.
Proof. destruct b, DEBUGGING; split; reflexivity. Qed.

Lemma rounds_config (s : bool * bool) (bs : list bool) :
  always adxl_next config_ok s (concat (map (round_shape DEBUGGING) bs)) = true.
Proof.
  induction bs as [|b bs IH]; [reflexivity|].
  cbn [map concat]. destruct (round_shape_config s b) as [H1 H2].
  now rewrite always_app, H1, H2, IH.
Qed.

Lemma rounds_bus_from (bs : list bool) :
  always pins_next bus_ok true (concat (map (round_shape DEBUGGING) bs)) = true.
Proof. apply (rounds_bus DEBUGGING bs). Qed.

End Whole.

(** C3, as stated, fails: with handlers that raise the flag, a motion
    interrupt that arrives in round 0 after the flag was tested (before the
    SPI pins are switched off) leaves the flag set when EM2 is entered. *)
Lemma C3_sleep_entered_with_flag_set :
  sleeps_with_flag_clear handlers_raise false
    (trace (main true handlers_raise env_late_motion 1 false)) = false.
Proof. vm_compute. reflexivity. Qed.

(** C3, amended. In a run of the main loop, every deep-sleep entry happens
    with the Event Flag clear if and only if in no round a handler raised
    the flag after the flag test (and clear) of that round and before the
    sleep entry, that is right before the debug message, before
    [systickInterrupts(false)], before [enableSPIpinsADXL(false)] or before
    [EMU_EnterEM2].  A flag raised before the test of a round is always
    cleared before the sleep entry of that round. *)
Theorem C3_flag_clear_at_sleep_iff_quiet_window
    (DEBUGGING : bool) (raises : WakeEvent -> bool) (env : Env)
    (fuel : nat) (t : bool) :
  sleeps_with_flag_clear raises t (trace (main_loop DEBUGGING raises env fuel t))
  = forallb (fun round => negb (existsb raises (sleep_window DEBUGGING env round)))
            (seq 0 fuel).
Proof. apply main_loop_sleeps. Qed.

(** C4. No operation on the accelerometer's bus is executed while the SPI
    pins are disabled: in any run of the main loop entered with the pins
    enabled, and in any run of the whole program from power-on, every bus
    access happens after an enable of the pins (by [initADXL_SPI] at boot,
    by [enableSPIpinsADXL(true)] after each sleep) and before the next
    disable. *)
Theorem C4_bus_access_only_with_pins_enabled
    (DEBUGGING : bool) (raises : WakeEvent -> bool) (env : Env)
    (fuel : nat) (t : bool) :
  bus_only_with_pins true (trace (main_loop DEBUGGING raises env fuel t)) = true
  /\ bus_only_with_pins false (trace (main DEBUGGING raises env fuel t)) = true.
Proof.
  split; [apply main_loop_bus|].
  rewrite <- bus_foreground, main_foreground.
  unfold bus_only_with_pins. rewrite always_app.
  destruct (systick_result env =? 0); [|reflexivity].
  rewrite always_app.
  assert (Hpins : replay pins_next (replay pins_next false (main_start_calls env))
                    (main_init_calls DEBUGGING) = true)
    by (destruct DEBUGGING; reflexivity).
  rewrite Hpins, rounds_bus_from.
  destruct DEBUGGING; reflexivity.
Qed.

(** C8. If the configuration of SysTick fails at boot (a result other than
    zero), then however long the program runs it has done nothing but the
    chip initialisation, the clock query and the failed call: it spins in
    the empty loop, returns no value, performs none of the remaining
    initialisation, never enters the main loop and prints nothing. *)
Theorem C8_systick_failure_halts
    (DEBUGGING : bool) (raises : WakeEvent -> bool) (env : Env)
    (fuel : nat) (t : bool) :
  systick_result env <> 0 ->
  result (main DEBUGGING raises env fuel t) = None
  /\ foreground (trace (main DEBUGGING raises env fuel t))
     = [CHIP_Init; CMU_ClockFreqGet cmuClock_CORE;
        SysTick_Config ((core_clock env mod 2 ^ 32) / 1000)].
Proof.
  intros Hfail. rewrite main_hang by assumption. split; [reflexivity|].
  cbn [trace snd]. fg_cases.
Qed.

Lemma C8_systick_failure_halts_witness :
  systick_result env_systick_fails <> 0
  /\ (result (main true handlers_raise env_systick_fails 3 false) = None
      /\ foreground (trace (main true handlers_raise env_systick_fails 3 false))
         = [CHIP_Init; CMU_ClockFreqGet cmuClock_CORE;
            SysTick_Config ((core_clock env_systick_fails mod 2 ^ 32) / 1000)]).
Proof.
  split.
  - simpl. lia.
  - apply (C8_systick_failure_halts true handlers_raise env_systick_fails 3 false).
    simpl. lia.
Defined.

(** ** The wake sources *)

Lemma initGPIOwakeup_straight raises env :
  straight raises (initGPIOwakeup raises env) initGPIOwakeup_calls
    (flat_map (boot_irq env) [65; 68; 69; 72; 75; 78; 81; 82; 85]%nat).
Proof.
  unfold initGPIOwakeup.
  eapply straight_eq; [straight_code | reflexivity |].
  cbn [flat_map app]. now rewrite ?app_nil_r, <- ?app_assoc.
Qed.

Lemma GPIO_run_foreground hw tr : GPIO.run hw (foreground tr) = GPIO.run hw tr.
Proof. apply replay_foreground. reflexivity. Qed.

Lemma BUS_RegBitWrite_same reg bit val :
  0 <= bit -> Z.testbit (BUS_RegBitWrite reg bit val) bit = val.
Proof.
  intros H. unfold BUS_RegBitWrite. destruct val.
  - rewrite Z.setbit_eqb by assumption. now rewrite Z.eqb_refl.
  - rewrite Z.clearbit_eqb, Z.eqb_refl. apply andb_false_r.
Qed.

Lemma BUS_RegBitWrite_other reg bit val n :
  0 <= bit -> bit <> n -> Z.testbit (BUS_RegBitWrite reg bit val) n = Z.testbit reg n.
Proof.
  intros H Hne. unfold BUS_RegBitWrite. destruct val.
  - rewrite Z.setbit_eqb by assumption. apply Z.eqb_neq in Hne. now rewrite Hne.
  - rewrite Z.clearbit_eqb. apply Z.eqb_neq in Hne. rewrite Hne. apply andb_true_r.
Qed.

Ltac pins := unfold PB0_PORT, PB0_PIN, PB1_PORT, PB1_PIN, ADXL_INT1_PORT, ADXL_INT1_PIN.

Ltac hw_run :=
  cbn [GPIO.run replay initGPIOwakeup_calls GPIO.step GPIO.PinModeSet
       GPIO.IntConfig GPIO.EnableIRQ GPIO.MODE GPIO.DOUT GPIO.EXTIPSEL
       GPIO.EXTIRISE GPIO.EXTIFALL GPIO.IEN GPIO.ISER Z.eqb];
  pins.

Ltac hw_bits :=
  repeat first
    [ rewrite BUS_RegBitWrite_same by lia
    | rewrite BUS_RegBitWrite_other by lia ].

Section AfterInit.
Variable hw : GPIO.t.
Local Abbreviation hw' := (GPIO.run hw initGPIOwakeup_calls).

Lemma mode_PB0 : GPIO.pin_mode hw' PB0_PORT PB0_PIN = gpioModeInputPullFilter.
Proof. unfold GPIO.pin_mode. hw_run. now simplify_map_eq. Qed.

Lemma mode_PB1 : GPIO.pin_mode hw' PB1_PORT PB1_PIN = gpioModeInputPullFilter.
Proof. unfold GPIO.pin_mode. hw_run. now simplify_map_eq. Qed.

Lemma mode_INT1 : GPIO.pin_mode hw' ADXL_INT1_PORT ADXL_INT1_PIN = gpioModeInput.
Proof. unfold GPIO.pin_mode. hw_run. now simplify_map_eq. Qed.

Lemma dout_INT1 : GPIO.pin_dout hw' ADXL_INT1_PORT ADXL_INT1_PIN = true.
Proof. unfold GPIO.pin_dout. hw_run. apply bool_decide_eq_true_2. set_solver. Qed.

Lemma armed_PB0 : GPIO.armed hw' PB0_PORT PB0_PIN = true.
Proof.
  unfold GPIO.armed. apply andb_true_intro. hw_run. split.
  - apply bool_decide_eq_true_2. now simplify_map_eq.
  - now hw_bits.
Qed.

Lemma armed_PB1 : GPIO.armed hw' PB1_PORT PB1_PIN = true.
Proof.
  unfold GPIO.armed. apply andb_true_intro. hw_run. split.
  - apply bool_decide_eq_true_2. now simplify_map_eq.
  - now hw_bits.
Qed.

Lemma armed_INT1 : GPIO.armed hw' ADXL_INT1_PORT ADXL_INT1_PIN = true.
Proof.
  unfold GPIO.armed. apply andb_true_intro. hw_run. split.
  - apply bool_decide_eq_true_2. now simplify_map_eq.
  - now hw_bits.
Qed.

Lemma edges :
  GPIO.on_falling hw' PB0_PIN = true /\ GPIO.on_falling hw' PB1_PIN = true
  /\ GPIO.on_rising hw' ADXL_INT1_PIN = true
  /\ GPIO.on_falling hw' ADXL_INT1_PIN = false.
Proof. unfold GPIO.on_falling, GPIO.on_rising. hw_run. hw_bits. auto. Qed.

Lemma unmasked_both :
  GPIO.unmasked hw' GPIO_EVEN_IRQn = true /\ GPIO.unmasked hw' GPIO_ODD_IRQn = true.
Proof.
  unfold GPIO.unmasked. hw_run. split; apply bool_decide_eq_true_2; set_solver.
Qed.
End AfterInit.

(** C5, as stated, fails: the motion line is put in the plain input mode
    with its DOUT bit written 1, and in that mode the DOUT bit switches the
    glitch filter on. *)
Lemma C5_motion_line_is_filtered :
  GPIO.is_filtered
    (GPIO.run GPIO.reset (trace (initGPIOwakeup handlers_raise env_quiet false)))
    ADXL_INT1_PORT ADXL_INT1_PIN = true
  /\ GPIO.wake_sources_armed
       (GPIO.run GPIO.reset (trace (initGPIOwakeup handlers_raise env_quiet false)))
       false = false.
Proof. split; vm_compute; reflexivity. Qed.

(** C5, amended. After [initGPIOwakeup], whatever the GPIO block was
    before: both button lines are inputs in the pull-filter mode (glitch
    filter on) and armed for falling-edge interrupts; the motion line is an
    input in the plain input mode with its DOUT bit set, which switches the
    glitch filter on, and it is armed for rising-edge and not for
    falling-edge interrupts; the even and the odd GPIO interrupt lines are
    unmasked at the interrupt controller. *)
Theorem C5_wake_sources_after_init
    (raises : WakeEvent -> bool) (env : Env) (t : bool) (hw : GPIO.t) :
  let hw' := GPIO.run hw (trace (initGPIOwakeup raises env t)) in
  GPIO.pin_mode hw' PB0_PORT PB0_PIN = gpioModeInputPullFilter
  /\ GPIO.pin_mode hw' PB1_PORT PB1_PIN = gpioModeInputPullFilter
  /\ GPIO.button_armed hw' PB0_PORT PB0_PIN = true
  /\ GPIO.button_armed hw' PB1_PORT PB1_PIN = true
  /\ GPIO.pin_mode hw' ADXL_INT1_PORT ADXL_INT1_PIN = gpioModeInput
  /\ GPIO.pin_dout hw' ADXL_INT1_PORT ADXL_INT1_PIN = true
  /\ GPIO.is_filtered hw' ADXL_INT1_PORT ADXL_INT1_PIN = true
  /\ GPIO.motion_armed hw' true = true
  /\ GPIO.unmasked hw' GPIO_EVEN_IRQn = true
  /\ GPIO.unmasked hw' GPIO_ODD_IRQn = true.
Proof.
  intros hw'. unfold hw'. rewrite <- GPIO_run_foreground.
  destruct (initGPIOwakeup_straight raises env t) as (_ & -> & _).
  pose proof (mode_PB0 hw) as M0. pose proof (mode_PB1 hw) as M1.
  pose proof (mode_INT1 hw) as M2. pose proof (dout_INT1 hw) as D2.
  destruct (edges hw) as (E0 & E1 & E2 & E3).
  destruct (unmasked_both hw) as (U0 & U1).
  unfold GPIO.button_armed, GPIO.motion_armed, GPIO.is_input, GPIO.is_filtered.
  rewrite M0, M1, M2, D2, E0, E1, E2, E3, U0, U1.
  rewrite armed_PB0, armed_PB1, armed_INT1.
  repeat split.
Qed.

(** ** The periodic timer *)

Lemma COMPARE_RTC_value : uint32_of_double COMPARE_RTC = 1966080.
Proof. vm_compute. reflexivity. Qed.

Lemma COMPARE_RTC_exact :
  integer_of_double DELAY_RTC = Some 60
  /\ integer_of_double (double_of_int LFXOFREQ) = Some LFXOFREQ
  /\ integer_of_double COMPARE_RTC = Some (60 * LFXOFREQ).
Proof. repeat split; vm_compute; reflexivity. Qed.

Lemma initRTCcomp_straight raises env :
  straight raises (initRTCcomp raises env) initRTCcomp_calls
    (flat_map (boot_irq env) [95; 98; 101; 104; 107; 110; 111; 112; 118]%nat).
Proof.
  unfold initRTCcomp.
  eapply straight_eq; [straight_code | reflexivity |].
  cbn [flat_map app]. now rewrite ?app_nil_r, <- ?app_assoc.
Qed.

Module RTCFacts.
Import RTC.

Lemma tick_stopped hw : CTRL_EN hw = false -> IF_COMP0 hw = false -> tick hw = hw.
Proof.
  destruct hw as [c n en top ien f p u]. cbn. intros -> ->. cbn.
  unfold raise_line. cbn. now rewrite orb_false_r.
Qed.

Lemma run_stopped k hw :
  CTRL_EN hw = false -> IF_COMP0 hw = false -> run hw (repeat Tick k) = hw.
Proof.
  intros Hen Hif. induction k as [|k IH]; [reflexivity|].
  cbn [repeat run replay step]. rewrite tick_stopped by assumption. exact IH.
Qed.

Lemma quiet_stopped k hw :
  CTRL_EN hw = false -> IF_COMP0 hw = false -> fires hw = false ->
  always step (fun s i => negb (fires (step s i))) hw (repeat Tick k) = true.
Proof.
  intros Hen Hif Hq. induction k as [|k IH]; [reflexivity|].
  cbn [repeat always step]. rewrite tick_stopped by assumption. now rewrite Hq.
Qed.

Lemma tick_counting c n :
  0 < c <= COMP0_MASK -> Z.of_nat n < c -> tick (counting c n) = counting c (S n).
Proof.
  intros Hc Hn. unfold tick, counting. cbn [CTRL_EN CTRL_COMP0TOP CNT COMP0 andb].
  assert (H1 : (Z.of_nat n =? c) = false) by (apply Z.eqb_neq; lia).
  rewrite H1. unfold raise_line. cbn [COMP0 CNT CTRL_EN CTRL_COMP0TOP IEN_COMP0 IF_COMP0 pending unmasked orb].
  rewrite Z.mod_small by (unfold COMP0_MASK in *; lia).
  replace (Z.of_nat n + 1) with (Z.of_nat (S n)) by lia.
  now rewrite andb_true_r.
Qed.

Lemma run_counting c n :
  0 < c <= COMP0_MASK -> Z.of_nat n <= c ->
  run (counting c 0) (repeat Tick n) = counting c n.
Proof.
  intros Hc. induction n as [|n IH]; intros Hn; [reflexivity|].
  cbn [repeat]. rewrite repeat_cons. unfold run in *. rewrite replay_app, IH by lia.
  cbn [replay step]. apply tick_counting; [assumption | lia].
Qed.

Lemma replay_counting c n :
  0 < c <= COMP0_MASK -> Z.of_nat n <= c ->
  replay step (counting c 0) (repeat Tick n) = counting c n.
Proof. apply run_counting. Qed.

Lemma quiet_counting c n :
  0 < c <= COMP0_MASK -> Z.of_nat n < c ->
  always step (fun s i => negb (fires (step s i))) (counting c 0) (repeat Tick n) = true.
Proof.
  intros Hc. induction n as [|n IH]; intros Hn; [reflexivity|].
  cbn [repeat]. rewrite repeat_cons, always_app, IH by lia.
  fold (run (counting c 0) (repeat Tick n)). rewrite run_counting by lia.
  cbn [always step andb]. rewrite tick_counting by lia.
  unfold fires, counting. cbn [pending unmasked].
  assert (H1 : (Z.of_nat (S n) =? c) = false) by (apply Z.eqb_neq; lia).
  now rewrite H1.
Qed.

Lemma replay_stopped k hw :
  CTRL_EN hw = false -> IF_COMP0 hw = false ->
  replay step hw (repeat Tick k) = hw.
Proof. apply run_stopped. Qed.

Lemma COMP0_written : Z.land 1966080 COMP0_MASK = 1966080.
Proof. reflexivity. Qed.

Ltac rtc_stage :=
  rewrite ?replay_app, ?always_app;
  rewrite ?replay_stopped by reflexivity;
  rewrite ?quiet_stopped
    by (unfold fires; cbn [pending unmasked];
        first [reflexivity | apply andb_false_r]);
  rewrite ?andb_false_r;
  cbn [replay always step do_call raise_line fires
       COMP0 CNT CTRL_EN CTRL_COMP0TOP IEN_COMP0 IF_COMP0 pending unmasked
       enable comp0Top RTC_INIT_DEFAULT andb orb negb].

Lemma init_run (lead : nat -> nat) (hw : t) :
  after_reset hw ->
  run hw (weave lead 0 initRTCcomp_calls) = counting 1966080 0
  /\ quiet hw (weave lead 0 initRTCcomp_calls) = true.
Proof.
  destruct hw as [c n en top ien f p u]. unfold after_reset. cbn.
  intros (-> & -> & -> & ->).
  unfold quiet, run. cbn [weave initRTCcomp_calls].
  rewrite COMPARE_RTC_value.
  split.
  - repeat (progress rtc_stage). rewrite COMP0_written. reflexivity.
  - repeat (progress rtc_stage). unfold fires. cbn [pending unmasked].
    rewrite ?andb_false_r. reflexivity.
Qed.

End RTCFacts.

(** C6. The value passed to [RTC_CompareSet] for compare register 0 is
    exactly 60 x 32768 = 1966080: the [double] constants 60.0 and 32768 and
    their product are integers, so the multiplication rounds nothing away,
    and the conversion to [uint32_t] and the 24-bit register keep the
    value. *)
Theorem C6_compare_value_exact
    (raises : WakeEvent -> bool) (env : Env) (t : bool) (hw : RTC.t) :
  let calls := foreground (trace (initRTCcomp raises env t)) in
  integer_of_double DELAY_RTC = Some 60
  /\ integer_of_double (double_of_int LFXOFREQ) = Some LFXOFREQ
  /\ integer_of_double COMPARE_RTC = Some (60 * LFXOFREQ)
  /\ uint32_of_double COMPARE_RTC = 60 * LFXOFREQ
  /\ 60 * LFXOFREQ = 1966080
  /\ List.filter is_compare_set calls = [RTC_CompareSet 0 1966080]
  /\ RTC.COMP0 (RTC.run hw (map RTC.Call calls)) = 1966080.
Proof.
  intros calls. unfold calls.
  destruct (initRTCcomp_straight raises env t) as (_ & -> & _).
  destruct COMPARE_RTC_exact as (H1 & H2 & H3).
  split; [exact H1|]. split; [exact H2|]. split; [exact H3|].
  split; [rewrite COMPARE_RTC_value; reflexivity|]. split; [reflexivity|].
  unfold initRTCcomp_calls. rewrite COMPARE_RTC_value.
  split; [reflexivity|].
  destruct hw. reflexivity.
Qed.

(** C10. [initRTCcomp] sets the clocks up and then, in this order, writes
    the compare value, enables the compare interrupt, clears what is pending
    at the interrupt controller, unmasks the line, and only then initialises
    and starts the counter.  Starting from the reset state of the counter,
    with or without an interrupt pending from before, and however many
    clock cycles go by between the calls: the timer interrupt is not taken
    during the initialisation nor during the first 1966079 cycles after it,
    and it is taken after 1966080 cycles. *)
Theorem C10_timer_armed_before_counter_starts
    (raises : WakeEvent -> bool) (env : Env) (t : bool)
    (lead : nat -> nat) (m : nat) (hw : RTC.t) :
  RTC.after_reset hw ->
  Z.of_nat m < 1966080 ->
  let calls := foreground (trace (initRTCcomp raises env t)) in
  calls = [CMU_OscillatorEnable cmuOsc_LFXO true true;
           CMU_ClockEnable cmuClock_HFLE true;
           CMU_ClockSelectSet cmuClock_LFA cmuSelect_LFXO;
           CMU_ClockEnable cmuClock_RTC true;
           RTC_CompareSet 0 1966080;
           RTC_IntEnable RTC_IEN_COMP0;
           NVIC_ClearPendingIRQ RTC_IRQn;
           NVIC_EnableIRQ RTC_IRQn;
           RTC_Init RTC_INIT_DEFAULT]
  /\ RTC.quiet hw (RTC.weave lead 0 calls ++ repeat RTC.Tick m) = true
  /\ RTC.fires (RTC.run hw (RTC.weave lead 0 calls
                            ++ repeat RTC.Tick (Z.to_nat 1966080))) = true.
Proof.
  intros Hreset Hm calls. unfold calls.
  destruct (initRTCcomp_straight raises env t) as (_ & -> & _).
  destruct (RTCFacts.init_run lead hw Hreset) as (Hrun & Hquiet).
  split; [|split].
  - unfold initRTCcomp_calls. now rewrite COMPARE_RTC_value.
  - unfold RTC.quiet in *. rewrite always_app.
    apply andb_prop in Hquiet as [Hq1 Hq2]. rewrite Hq1, Hq2.
    fold (RTC.run hw (RTC.weave lead 0 initRTCcomp_calls)). rewrite Hrun.
    apply RTCFacts.quiet_counting; [unfold RTC.COMP0_MASK; lia | assumption].
  - unfold RTC.run in *. rewrite replay_app, Hrun.
    rewrite RTCFacts.replay_counting by (unfold RTC.COMP0_MASK; lia).
    unfold RTC.fires, RTC.counting. cbn [RTC.pending RTC.unmasked].
    rewrite Z2Nat.id by lia. reflexivity.
Qed.

Lemma C10_timer_armed_before_counter_starts_witness :
  RTC.after_reset RTC.stale_reset
  /\ Z.of_nat 100 < 1966080
  /\ RTC.quiet RTC.stale_reset
       (RTC.weave (fun _ => 3%nat) 0
          (foreground (trace (initRTCcomp handlers_raise env_quiet false)))
        ++ repeat RTC.Tick 100) = true.
Proof.
  assert (H1 : RTC.after_reset RTC.stale_reset) by (repeat split).
  assert (H2 : Z.of_nat 100 < 1966080) by (simpl; lia).
  split; [exact H1|]. split; [exact H2|].
  exact (proj1 (proj2 (C10_timer_armed_before_counter_starts
                         handlers_raise env_quiet false (fun _ => 3%nat) 100
                         RTC.stale_reset H1 H2))).
Defined.

(** ** The two builds *)

Section Builds.
Variable raises : WakeEvent -> bool.
Variable env : Env.

Lemma core_round_shape (b : bool) : core (round_shape true b) = round_shape false b.
Proof. destruct b; reflexivity. Qed.

Lemma core_rounds (bs : list bool) :
  core (concat (map (round_shape true) bs)) = concat (map (round_shape false) bs).
Proof.
  induction bs as [|b bs IH]; [reflexivity|].
  cbn [map concat]. now rewrite core_app, core_round_shape, IH.
Qed.

Lemma core_main_init_calls : core (main_init_calls true) = main_init_calls false.
Proof. reflexivity. Qed.

Lemma core_main_start_calls (e : Env) : core (main_start_calls e) = main_start_calls e.
Proof. reflexivity. Qed.

(** *** Without handlers right before the debug statements *)

Lemma mute_tick_window (round : nat) :
  tick_window (mute_debug env) round = tick_window env round.
Proof. reflexivity. Qed.

Lemma mute_flag_after_round (round : nat) :
  flag_after_round true raises (mute_debug env) round
  = flag_after_round false raises env round.
Proof. reflexivity. Qed.

Lemma mute_tests (fuel round : nat) (t : bool) :
  tests true raises (mute_debug env) fuel round t = tests false raises env fuel round t.
Proof.
  revert round t. induction fuel as [|fuel IH]; intros round t; [reflexivity|].
  cbn [tests]. now rewrite mute_tick_window, mute_flag_after_round, IH.
Qed.

Lemma mute_boot_window :
  boot_window true (mute_debug env) = boot_window false env.
Proof.
  unfold boot_window. cbn [init_lines flat_map app mute_debug boot_irq is_debug_line Nat.eqb orb].
  now rewrite ?app_nil_r.
Qed.

(** *** With the handlers of a debug statement run before the next statement *)

Lemma merge_tick_window (round : nat) :
  tick_window (merge_debug env) (S round) = tick_window env (S round).
Proof. reflexivity. Qed.

Lemma merge_flag_after_round (round : nat) :
  flag_after_round false raises (merge_debug env) round
  = flag_after_round true raises env round.
Proof.
  unfold flag_after_round, sleep_window.
  cbn [merge_debug loop_irq wake_irq Nat.eqb andb app].
  destruct round; cbn [Nat.eqb andb]; now rewrite <- ?app_assoc.
Qed.

Lemma merge_tests (fuel round : nat) (t : bool) :
  tests false raises (merge_debug env) fuel (S round) t
  = tests true raises env fuel (S round) t.
Proof.
  revert round t. induction fuel as [|fuel IH]; intros round t; [reflexivity|].
  cbn [tests]. now rewrite merge_tick_window, merge_flag_after_round, IH.
Qed.

Lemma merge_first_test (t : bool) :
  existsb raises (tick_window (merge_debug env) 0)
  || (existsb raises (boot_window false (merge_debug env)) || t)
  = existsb raises (tick_window env 0)
    || (existsb raises (boot_window true env) || t).
Proof.
  rewrite !or_step. f_equal. f_equal.
  unfold boot_window, tick_window.
  cbn [init_lines flat_map app merge_debug boot_irq loop_irq Nat.eqb andb].
  now rewrite ?app_nil_r, <- ?app_assoc.
Qed.

Lemma merge_tests_from_boot (fuel : nat) (t : bool) :
  tests false raises (merge_debug env) fuel 0
    (existsb raises (boot_window false (merge_debug env)) || t)
  = tests true raises env fuel 0 (existsb raises (boot_window true env) || t).
Proof.
  destruct fuel as [|fuel]; [reflexivity|].
  cbn [tests]. now rewrite merge_first_test, merge_flag_after_round, merge_tests.
Qed.

End Builds.

(** C9. The build without [DEBUGGING] behaves as the build with it, the
    diagnostic output left aside.  Every run of the build without it is a
    run of the build with it in which no handler runs right before a debug
    statement; and every run of the build with it is matched by the run of
    the build without it in which the handlers that ran right before a
    debug statement run right before the next statement instead.  In both
    cases the foreground performs the same sequence of calls, flag tests
    and clears, and sleep and wake transitions. *)
Theorem C9_core_is_the_same_without_debugging
    (raises : WakeEvent -> bool) (env : Env) (fuel : nat) (t : bool) :
  foreground (trace (main false raises env fuel t))
  = core (foreground (trace (main true raises (mute_debug env) fuel t)))
  /\ core (foreground (trace (main true raises env fuel t)))
     = foreground (trace (main false raises (merge_debug env) fuel t)).
Proof.
  rewrite !main_foreground. split.
  - cbn [mute_debug systick_result].
    rewrite core_app, core_main_start_calls.
    change (main_start_calls (mute_debug env)) with (main_start_calls env).
    f_equal. destruct (systick_result env =? 0); [|reflexivity].
    now rewrite core_app, core_main_init_calls, core_rounds, mute_boot_window, mute_tests.
  - cbn [merge_debug systick_result].
    rewrite core_app, core_main_start_calls.
    change (main_start_calls (merge_debug env)) with (main_start_calls env).
    f_equal. destruct (systick_result env =? 0); [|reflexivity].
    now rewrite core_app, core_main_init_calls, core_rounds, merge_tests_from_boot.
Qed.

(** * Further properties *)

Lemma reads_app (tr1 tr2 : list event) : reads (tr1 ++ tr2) = reads tr1 ++ reads tr2.
Proof. apply flat_map_app. Qed.

Lemma reads_foreground (tr : list event) : reads (foreground tr) = reads tr.
Proof.
  induction tr as [|e tr IH]; [reflexivity|].
  destruct e; simpl; rewrite ?IH; reflexivity.
Qed.

Lemma reads_rounds (D : bool) (bs : list bool) :
  reads (concat (map (round_shape D) bs)) = bs.
Proof.
  induction bs as [|b bs IH]; [reflexivity|].
  cbn [map concat]. rewrite reads_app, IH. destruct b, D; reflexivity.
Qed.

Section Tests.
Variable DEBUGGING : bool.
Variable raises : WakeEvent -> bool.
Variable env : Env.

Lemma main_reads (fuel : nat) (t : bool) :
  systick_result env = 0 ->
  reads (trace (main DEBUGGING raises env fuel t))
  = tests DEBUGGING raises env fuel 0
      (existsb raises (boot_window DEBUGGING env) || t).
Proof.
  intros Hok. rewrite <- reads_foreground, main_foreground, Hok. cbn [Z.eqb].
  rewrite !reads_app, reads_rounds.
  destruct DEBUGGING; reflexivity.
Qed.

Lemma tests_length (fuel round : nat) (t : bool) :
  length (tests DEBUGGING raises env fuel round t) = fuel.
Proof.
  revert round t. induction fuel as [|fuel IH]; intros round t; [reflexivity|].
  cbn [tests length]. now rewrite IH.
Qed.

Lemma tests_later (fuel round : nat) (t : bool) (j : nat) :
  (S j < fuel)%nat ->
  nth_error (tests DEBUGGING raises env fuel round t) (S j)
  = Some (existsb raises
            (after_test_window DEBUGGING env (round + j)
             ++ tick_window env (round + S j))).
Proof.
  revert fuel round t. induction j as [|j IH]; intros fuel round t Hj.
  - destruct fuel as [|[|fuel]]; [lia | lia |].
    cbn [tests nth_error]. rewrite Nat.add_0_r, Nat.add_1_r.
    f_equal. rewrite existsb_app. apply orb_comm.
  - destruct fuel as [|fuel]; [lia|].
    change (nth_error (tests DEBUGGING raises env (S fuel) round t) (S (S j)))
      with (nth_error (tests DEBUGGING raises env fuel (S round)
                         (flag_after_round DEBUGGING raises env round)) (S j)).
    rewrite IH by lia. now rewrite <- !Nat.add_succ_comm.
Qed.

Lemma tests_first (fuel round : nat) (t : bool) :
  (0 < fuel)%nat ->
  nth_error (tests DEBUGGING raises env fuel round t) 0
  = Some (existsb raises (tick_window env round) || t).
Proof. destruct fuel; [lia | reflexivity]. Qed.

End Tests.

(** X1. When [SysTick_Config] succeeds, the [k]-th test of the Event Flag
    (the first one is test 0) reads the flag set exactly when a handler
    raised it since the previous test, or, for the first test, when it was
    set at power-on: the first test sees the handlers of the boot sequence
    and of the first tick; a later test sees those that ran after the test
    (and clear) of the previous round, around its sleep, and during the tick
    of its own round. *)
Theorem X1_what_each_test_reads
    (DEBUGGING : bool) (raises : WakeEvent -> bool) (env : Env)
    (fuel : nat) (t : bool) (k : nat) :
  systick_result env = 0 ->
  (k < fuel)%nat ->
  nth_error (reads (trace (main DEBUGGING raises env fuel t))) k
  = Some (existsb raises (seen_by_test DEBUGGING env k)
          || match k with O => t | S _ => false end).
Proof.
  intros Hok Hk. rewrite main_reads by assumption.
  destruct k as [|j].
  - rewrite tests_first by assumption. cbn [seen_by_test].
    now rewrite or_step.
  - rewrite tests_later by assumption. cbn [seen_by_test Nat.add].
    now rewrite orb_false_r.
Qed.

Lemma X1_what_each_test_reads_witness :
  systick_result env_busy = 0
  /\ (1 < 3)%nat
  /\ nth_error (reads (trace (main true motion_raises env_busy 3 false))) 1
     = Some (existsb motion_raises (seen_by_test true env_busy 1) || false).
Proof.
  assert (H1 : systick_result env_busy = 0) by reflexivity.
  assert (H2 : (1 < 3)%nat) by lia.
  split; [exact H1|]. split; [exact H2|].
  exact (X1_what_each_test_reads true motion_raises env_busy 3 false 1 H1 H2).
Defined.

(** ** Handlers between the test and the clear *)

Section AckWindow.
Variable DEBUGGING : bool.
Variable raises : WakeEvent -> bool.
Variable env : Env.

Lemma drop_ack_tests (fuel round : nat) (t : bool) :
  tests DEBUGGING raises (drop_ack_window env) fuel round t
  = tests DEBUGGING raises env fuel round t.
Proof.
  revert round t. induction fuel as [|fuel IH]; intros round t; [reflexivity|].
  cbn [tests]. rewrite IH. destruct DEBUGGING; reflexivity.
Qed.

Lemma drop_ack_boot_window :
  boot_window DEBUGGING (drop_ack_window env) = boot_window DEBUGGING env.
Proof. reflexivity. Qed.

End AckWindow.

(** X2. The handlers that run between the flag test and the clear (right
    before the status read of line 200 or right before the store of
    line 201) change nothing in what the foreground does, in that round or
    later: the store wipes what they raised. *)
Theorem X2_raise_between_test_and_clear_is_lost
    (DEBUGGING : bool) (raises : WakeEvent -> bool) (env : Env)
    (fuel : nat) (t : bool) :
  foreground (trace (main DEBUGGING raises env fuel t))
  = foreground (trace (main DEBUGGING raises (drop_ack_window env) fuel t)).
Proof.
  rewrite !main_foreground.
  change (main_start_calls (drop_ack_window env)) with (main_start_calls env).
  change (systick_result (drop_ack_window env)) with (systick_result env).
  now rewrite drop_ack_boot_window, drop_ack_tests.
Qed.

(** ** The source of an interrupt *)

Lemma boot_irq_renamed (f : WakeEvent -> WakeEvent) (env : Env) (lines : list nat) :
  flat_map (fun line => map f (boot_irq env line)) lines
  = map f (flat_map (boot_irq env) lines).
Proof.
  induction lines as [|line lines IH]; simpl; [reflexivity|].
  now rewrite IH, map_app.
Qed.

Section Sources.
Variable DEBUGGING : bool.
Variable raises : WakeEvent -> bool.
Variable f : WakeEvent -> WakeEvent.
Variable env : Env.
Hypothesis same_effect : forall w, raises (f w) = raises w.

Lemma raises_renamed (ws : list WakeEvent) :
  existsb raises (map f ws) = existsb raises ws.
Proof using same_effect.
  induction ws as [|w ws IH]; simpl; [reflexivity|].
  now rewrite same_effect, IH.
Qed.

Lemma rename_tick_window (round : nat) :
  tick_window (rename_sources f env) round = map f (tick_window env round).
Proof. unfold tick_window. cbn [rename_sources loop_irq]. now rewrite !map_app. Qed.

Lemma rename_after_test (round : nat) :
  sleep_window DEBUGGING (rename_sources f env) round
  ++ [wake_irq (rename_sources f env) round]
  ++ loop_irq (rename_sources f env) round 213
  ++ loop_irq (rename_sources f env) round 214
  = map f (after_test_window DEBUGGING env round).
Proof.
  unfold after_test_window, sleep_window. cbn [rename_sources loop_irq wake_irq].
  destruct DEBUGGING; now rewrite !map_app.
Qed.

Lemma rename_flag_after_round (round : nat) :
  flag_after_round DEBUGGING raises (rename_sources f env) round
  = flag_after_round DEBUGGING raises env round.
Proof using same_effect.
  unfold flag_after_round. rewrite rename_after_test. apply raises_renamed.
Qed.

Lemma rename_tests (fuel round : nat) (t : bool) :
  tests DEBUGGING raises (rename_sources f env) fuel round t
  = tests DEBUGGING raises env fuel round t.
Proof using same_effect.
  revert round t. induction fuel as [|fuel IH]; intros round t; [reflexivity|].
  cbn [tests].
  now rewrite rename_tick_window, raises_renamed, rename_flag_after_round, IH.
Qed.

Lemma rename_boot_window :
  existsb raises (boot_window DEBUGGING (rename_sources f env))
  = existsb raises (boot_window DEBUGGING env).
Proof using same_effect.
  unfold boot_window. cbn [rename_sources boot_irq].
  rewrite boot_irq_renamed. apply raises_renamed.
Qed.

End Sources.

(** X3. The foreground does not distinguish the wake sources: when every
    interrupt is replaced by one from another source whose handler does the
    same to the flag, the program performs the same sequence of calls, flag
    tests and clears. *)
Theorem X3_wake_source_is_not_distinguished
    (DEBUGGING : bool) (raises : WakeEvent -> bool) (f : WakeEvent -> WakeEvent)
    (env : Env) (fuel : nat) (t : bool) :
  (forall w, raises (f w) = raises w) ->
  foreground (trace (main DEBUGGING raises (rename_sources f env) fuel t))
  = foreground (trace (main DEBUGGING raises env fuel t)).
Proof.
  intros Hf. rewrite !main_foreground.
  change (main_start_calls (rename_sources f env)) with (main_start_calls env).
  change (systick_result (rename_sources f env)) with (systick_result env).
  now rewrite rename_boot_window, rename_tests.
Qed.

Lemma X3_wake_source_is_not_distinguished_witness :
  (forall w, handlers_raise ((fun _ => TimerExpired) w) = handlers_raise w)
  /\ foreground (trace (main true handlers_raise
                          (rename_sources (fun _ => TimerExpired) env_busy) 2 false))
     = foreground (trace (main true handlers_raise env_busy 2 false)).
Proof.
  assert (H : forall w, handlers_raise ((fun _ => TimerExpired) w) = handlers_raise w)
    by reflexivity.
  split; [exact H|].
  exact (X3_wake_source_is_not_distinguished true handlers_raise
           (fun _ => TimerExpired) env_busy 2 false H).
Defined.

(** ** Acknowledging and clearing *)

Lemma filter_rounds (p : event -> bool) (D : bool) (bs : list bool) (e : event) :
  (forall b, List.filter p (round_shape D b) = if b then [e] else []) ->
  List.filter p (concat (map (round_shape D) bs))
  = repeat e (length (List.filter (fun b => b) bs)).
Proof.
  intros Hp. induction bs as [|b bs IH]; [reflexivity|].
  cbn [map concat]. rewrite List.filter_app, Hp, IH. destruct b; reflexivity.
Qed.

Lemma filter_true_le (bs : list bool) :
  (length (List.filter (fun b => b) bs) <= length bs)%nat.
Proof.
  induction bs as [|b bs IH]; simpl; [lia|]. destruct b; simpl; lia.
Qed.

(** X4. In a run of the main loop the only operations on the
    accelerometer's bus are reads of the status register, the only stores to
    the flag are clears, and there are as many of each as there are tests
    that read the flag set; so at most one of each per round. *)
Theorem X4_one_status_read_and_one_clear_per_raised_test
    (DEBUGGING : bool) (raises : WakeEvent -> bool) (env : Env)
    (fuel : nat) (t : bool) :
  let tr := trace (main_loop DEBUGGING raises env fuel t) in
  let n := length (List.filter (fun b => b) (reads tr)) in
  List.filter is_bus_access tr = repeat (readADXL ADXL_REG_STATUS) n
  /\ List.filter is_flag_write tr = repeat (WriteTriggered false) n
  /\ (n <= fuel)%nat.
Proof.
  intros tr n. unfold n, tr, main_loop.
  rewrite <- reads_foreground.
  rewrite <- (filter_foreground is_bus_access) by reflexivity.
  rewrite <- (filter_foreground is_flag_write) by reflexivity.
  destruct (main_loop_foreground DEBUGGING raises env fuel 0 t) as (bs & Hlen & ->).
  rewrite reads_rounds. split; [|split].
  - apply filter_rounds. intros b. destruct b, DEBUGGING; reflexivity.
  - apply filter_rounds. intros b. destruct b, DEBUGGING; reflexivity.
  - rewrite <- Hlen. apply filter_true_le.
Qed.

(** ** Rounds and sleeps *)

Lemma sleeps_rounds (D : bool) (bs : list bool) :
  length (List.filter is_sleep (concat (map (round_shape D) bs))) = length bs.
Proof.
  induction bs as [|b bs IH]; [reflexivity|].
  cbn [map concat]. rewrite List.filter_app, length_app, IH.
  destruct b, D; reflexivity.
Qed.

(** X5. When [SysTick_Config] succeeds, a run of [fuel] rounds contains
    exactly [fuel] entries into EM2 and exactly [fuel] tests of the flag:
    whatever interrupts arrive, every round tests the flag once and reaches
    its sleep. *)
Theorem X5_every_round_ends_in_one_sleep
    (DEBUGGING : bool) (raises : WakeEvent -> bool) (env : Env)
    (fuel : nat) (t : bool) :
  systick_result env = 0 ->
  length (List.filter is_sleep (trace (main DEBUGGING raises env fuel t))) = fuel
  /\ length (reads (trace (main DEBUGGING raises env fuel t))) = fuel.
Proof.
  intros Hok. split.
  - rewrite <- (filter_foreground is_sleep) by reflexivity.
    rewrite main_foreground, Hok. cbn [Z.eqb].
    rewrite !List.filter_app, !length_app, sleeps_rounds, tests_length.
    destruct DEBUGGING; reflexivity.
  - rewrite main_reads by assumption. apply tests_length.
Qed.

Lemma X5_every_round_ends_in_one_sleep_witness :
  systick_result env_busy = 0
  /\ (length (List.filter is_sleep (trace (main true motion_raises env_busy 3 false)))
      = 3%nat
      /\ length (reads (trace (main true motion_raises env_busy 3 false))) = 3%nat).
Proof.
  assert (H : systick_result env_busy = 0) by reflexivity.
  split; [exact H|].
  exact (X5_every_round_ends_in_one_sleep true motion_raises env_busy 3 false H).
Defined.

(** ** What is switched on when *)

Lemma round_shape_switches (D b l : bool) :
  let s := {| led_on := l; systick_on := true; pins_on := true |} in
  always switches_next switches_ok s (round_shape D b) = true
  /\ replay switches_next s (round_shape D b)
     = {| led_on := false; systick_on := true; pins_on := true |}.
Proof. destruct b, D; split; reflexivity. Qed.

Lemma rounds_switches (D : bool) (bs : list bool) (l : bool) :
  always switches_next switches_ok
    {| led_on := l; systick_on := true; pins_on := true |}
    (concat (map (round_shape D) bs)) = true.
Proof.
  revert l. induction bs as [|b bs IH]; intros l; [reflexivity|].
  cbn [map concat]. destruct (round_shape_switches D b l) as [H1 H2].
  now rewrite always_app, H1, H2, IH.
Qed.

(** X6. In a run of the main loop entered with the SysTick interrupts and
    the SPI pins switched on: every entry into EM2 happens with the LED off,
    the SysTick interrupts off and the SPI pins off, and every [Delay]
    happens with the SysTick interrupts on. *)
Theorem X6_sleep_with_everything_off_and_delay_with_systick_on
    (DEBUGGING : bool) (raises : WakeEvent -> bool) (env : Env)
    (fuel : nat) (t : bool) (led : bool) :
  always switches_next switches_ok
    {| led_on := led; systick_on := true; pins_on := true |}
    (trace (main_loop DEBUGGING raises env fuel t)) = true.
Proof.
  rewrite <- always_foreground by reflexivity.
  unfold main_loop.
  destruct (main_loop_foreground DEBUGGING raises env fuel 0 t) as (bs & _ & ->).
  apply rounds_switches.
Qed.

(** ** From a wake-up to the acknowledgement *)

(** X7. A wake-up is not overlooked: when the handler of the interrupt that
    ends the sleep of round [j] raises the flag, the test of round [j + 1]
    reads the flag set. *)
Theorem X7_raising_wake_up_is_acknowledged_in_the_next_round
    (DEBUGGING : bool) (raises : WakeEvent -> bool) (env : Env)
    (fuel : nat) (t : bool) (j : nat) :
  systick_result env = 0 ->
  (S j < fuel)%nat ->
  raises (wake_irq env j) = true ->
  nth_error (reads (trace (main DEBUGGING raises env fuel t))) (S j) = Some true.
Proof.
  intros Hok Hj Hw. rewrite main_reads by assumption.
  rewrite tests_later by assumption. cbn [Nat.add].
  unfold after_test_window. rewrite !existsb_app. cbn [existsb].
  rewrite Hw. f_equal. now rewrite orb_true_r.
Qed.

Lemma X7_raising_wake_up_is_acknowledged_in_the_next_round_witness :
  systick_result env_busy = 0
  /\ (1 < 3)%nat
  /\ motion_raises (wake_irq env_busy 0) = true
  /\ nth_error (reads (trace (main true motion_raises env_busy 3 false))) 1
     = Some true.
Proof.
  assert (H1 : systick_result env_busy = 0) by reflexivity.
  assert (H2 : (1 < 3)%nat) by lia.
  assert (H3 : motion_raises (wake_irq env_busy 0) = true) by reflexivity.
  split; [exact H1|]. split; [exact H2|]. split; [exact H3|].
  exact (X7_raising_wake_up_is_acknowledged_in_the_next_round
           true motion_raises env_busy 3 false 0 H1 H2 H3).
Defined.

(** ** What [initGPIOwakeup] leaves alone *)

Ltac hw_flags :=
  hw_run; cbn [GPIO.IFLAGS GPIO.PinModeSet GPIO.IntConfig GPIO.EnableIRQ].

Section Frame.
Variable hw : GPIO.t.
Local Abbreviation hw' := (GPIO.run hw initGPIOwakeup_calls).

Lemma frame_pin (port : GPIO_Port_TypeDef) (pin : Z) :
  (port, pin) <> (PB0_PORT, PB0_PIN) ->
  (port, pin) <> (PB1_PORT, PB1_PIN) ->
  (port, pin) <> (ADXL_INT1_PORT, ADXL_INT1_PIN) ->
  GPIO.pin_mode hw' port pin = GPIO.pin_mode hw port pin
  /\ GPIO.pin_dout hw' port pin = GPIO.pin_dout hw port pin.
Proof.
  intros H0 H1 H2. unfold GPIO.pin_mode, GPIO.pin_dout. hw_run.
  unfold PB0_PORT, PB0_PIN, PB1_PORT, PB1_PIN, ADXL_INT1_PORT, ADXL_INT1_PIN in *.
  split.
  - now rewrite !lookup_insert_ne by congruence.
  - apply bool_decide_ext. rewrite !elem_of_union, !elem_of_singleton.
    intuition congruence.
Qed.

Lemma frame_line (n : Z) :
  n <> PB0_PIN -> n <> PB1_PIN -> n <> ADXL_INT1_PIN ->
  GPIO.EXTIPSEL hw' !! n = GPIO.EXTIPSEL hw !! n
  /\ GPIO.on_rising hw' n = GPIO.on_rising hw n
  /\ GPIO.on_falling hw' n = GPIO.on_falling hw n
  /\ Z.testbit (GPIO.IEN hw') n = Z.testbit (GPIO.IEN hw) n
  /\ Z.testbit (GPIO.IFLAGS hw') n = Z.testbit (GPIO.IFLAGS hw) n.
Proof.
  unfold PB0_PIN, PB1_PIN, ADXL_INT1_PIN. intros H0 H1 H2.
  unfold GPIO.on_rising, GPIO.on_falling. hw_flags.
  split; [now rewrite !lookup_insert_ne by congruence|].
  assert (E9 : (9 =? n) = false) by (apply Z.eqb_neq; lia).
  assert (E10 : (10 =? n) = false) by (apply Z.eqb_neq; lia).
  assert (E7 : (7 =? n) = false) by (apply Z.eqb_neq; lia).
  rewrite !BUS_RegBitWrite_other by lia.
  rewrite !Z.clearbit_eqb, E9, E10, E7. cbn [negb]. rewrite !andb_true_r.
  repeat split.
Qed.

Lemma frame_RTC_line : GPIO.unmasked hw' RTC_IRQn = GPIO.unmasked hw RTC_IRQn.
Proof.
  unfold GPIO.unmasked. hw_run. apply bool_decide_ext.
  rewrite !elem_of_union, !elem_of_singleton. intuition congruence.
Qed.

(** What is left over on the lines that it configures. *)
Lemma leftovers :
  GPIO.on_rising hw' PB0_PIN = false /\ GPIO.on_rising hw' PB1_PIN = false
  /\ Z.testbit (GPIO.IFLAGS hw') PB0_PIN = false
  /\ Z.testbit (GPIO.IFLAGS hw') PB1_PIN = false
  /\ Z.testbit (GPIO.IFLAGS hw') ADXL_INT1_PIN = false.
Proof.
  unfold GPIO.on_rising. hw_flags. hw_bits.
  rewrite !Z.clearbit_eqb. cbn. rewrite ?andb_false_r. repeat split.
Qed.

End Frame.

(** X8. [initGPIOwakeup] changes neither the mode nor the DOUT bit of any
    pin other than PC9, PC10 and PD7. *)
Theorem X8_init_leaves_other_pins_alone
    (raises : WakeEvent -> bool) (env : Env) (t : bool) (hw : GPIO.t)
    (port : GPIO_Port_TypeDef) (pin : Z) :
  (port, pin) <> (PB0_PORT, PB0_PIN) ->
  (port, pin) <> (PB1_PORT, PB1_PIN) ->
  (port, pin) <> (ADXL_INT1_PORT, ADXL_INT1_PIN) ->
  let hw' := GPIO.run hw (trace (initGPIOwakeup raises env t)) in
  GPIO.pin_mode hw' port pin = GPIO.pin_mode hw port pin
  /\ GPIO.pin_dout hw' port pin = GPIO.pin_dout hw port pin.
Proof.
  intros P0 P1 P2 hw'. unfold hw'. rewrite <- GPIO_run_foreground.
  destruct (initGPIOwakeup_straight raises env t) as (_ & -> & _).
  now apply frame_pin.
Qed.

Lemma X8_init_leaves_other_pins_alone_witness :
  (gpioPortA, 9) <> (PB0_PORT, PB0_PIN)
  /\ (gpioPortA, 9) <> (PB1_PORT, PB1_PIN)
  /\ (gpioPortA, 9) <> (ADXL_INT1_PORT, ADXL_INT1_PIN)
  /\ (GPIO.pin_mode
        (GPIO.run GPIO.reset (trace (initGPIOwakeup handlers_raise env_quiet false)))
        gpioPortA 9
      = GPIO.pin_mode GPIO.reset gpioPortA 9
      /\ GPIO.pin_dout
           (GPIO.run GPIO.reset (trace (initGPIOwakeup handlers_raise env_quiet false)))
           gpioPortA 9
         = GPIO.pin_dout GPIO.reset gpioPortA 9).
Proof.
  assert (H0 : (gpioPortA, 9) <> (PB0_PORT, PB0_PIN)) by discriminate.
  assert (H1 : (gpioPortA, 9) <> (PB1_PORT, PB1_PIN)) by discriminate.
  assert (H2 : (gpioPortA, 9) <> (ADXL_INT1_PORT, ADXL_INT1_PIN)) by discriminate.
  split; [exact H0|]. split; [exact H1|]. split; [exact H2|].
  exact (X8_init_leaves_other_pins_alone handlers_raise env_quiet false
           GPIO.reset gpioPortA 9 H0 H1 H2).
Defined.

(** X9. [initGPIOwakeup] changes nothing on the external interrupt lines
    other than 7, 9 and 10 (port selection, edge bits, enable bit, pending
    flag), and it leaves the RTC line of the interrupt controller as it
    was. *)
Theorem X9_init_leaves_other_lines_alone
    (raises : WakeEvent -> bool) (env : Env) (t : bool) (hw : GPIO.t) (n : Z) :
  n <> PB0_PIN -> n <> PB1_PIN -> n <> ADXL_INT1_PIN ->
  let hw' := GPIO.run hw (trace (initGPIOwakeup raises env t)) in
  GPIO.EXTIPSEL hw' !! n = GPIO.EXTIPSEL hw !! n
  /\ GPIO.on_rising hw' n = GPIO.on_rising hw n
  /\ GPIO.on_falling hw' n = GPIO.on_falling hw n
  /\ Z.testbit (GPIO.IEN hw') n = Z.testbit (GPIO.IEN hw) n
  /\ Z.testbit (GPIO.IFLAGS hw') n = Z.testbit (GPIO.IFLAGS hw) n
  /\ GPIO.unmasked hw' RTC_IRQn = GPIO.unmasked hw RTC_IRQn.
Proof.
  intros L0 L1 L2 hw'. unfold hw'. rewrite <- GPIO_run_foreground.
  destruct (initGPIOwakeup_straight raises env t) as (_ & -> & _).
  destruct (frame_line hw n L0 L1 L2) as (F3 & F4 & F5 & F6 & F7).
  pose proof (frame_RTC_line hw) as F8.
  repeat (split; [assumption|]). assumption.
Qed.

Lemma X9_init_leaves_other_lines_alone_witness :
  4 <> PB0_PIN /\ 4 <> PB1_PIN /\ 4 <> ADXL_INT1_PIN
  /\ Z.testbit
       (GPIO.IEN (GPIO.run GPIO_stale_reset
                    (trace (initGPIOwakeup handlers_raise env_quiet false)))) 4
     = Z.testbit (GPIO.IEN GPIO_stale_reset) 4.
Proof.
  assert (H0 : 4 <> PB0_PIN) by discriminate.
  assert (H1 : 4 <> PB1_PIN) by discriminate.
  assert (H2 : 4 <> ADXL_INT1_PIN) by discriminate.
  split; [exact H0|]. split; [exact H1|]. split; [exact H2|].
  exact (proj1 (proj2 (proj2 (proj2
           (X9_init_leaves_other_lines_alone handlers_raise env_quiet false
              GPIO_stale_reset 4 H0 H1 H2))))).
Defined.

(** X10. Whatever the GPIO block held before, after [initGPIOwakeup] the
    two button lines are not armed for the rising edge, and no interrupt is
    pending on the lines 7, 9 and 10. *)
Theorem X10_init_clears_what_was_left_on_its_lines
    (raises : WakeEvent -> bool) (env : Env) (t : bool) (hw : GPIO.t) :
  let hw' := GPIO.run hw (trace (initGPIOwakeup raises env t)) in
  GPIO.on_rising hw' PB0_PIN = false
  /\ GPIO.on_rising hw' PB1_PIN = false
  /\ Z.testbit (GPIO.IFLAGS hw') PB0_PIN = false
  /\ Z.testbit (GPIO.IFLAGS hw') PB1_PIN = false
  /\ Z.testbit (GPIO.IFLAGS hw') ADXL_INT1_PIN = false.
Proof.
  intros hw'. unfold hw'. rewrite <- GPIO_run_foreground.
  destruct (initGPIOwakeup_straight raises env t) as (_ & -> & _).
  apply leftovers.
Qed.

(** ** No request from a stale flag *)

Lemma land_disjoint (x m : Z) :
  (forall n, 0 <= n -> Z.testbit m n = true -> Z.testbit x n = false) ->
  Z.land x m = 0.
Proof.
  intros H. apply Z.bits_inj'. intros n Hn.
  rewrite Z.land_spec, Z.bits_0.
  destruct (Z.testbit m n) eqn:Hm; [|apply andb_false_r].
  now rewrite (H n Hn Hm).
Qed.

Lemma no_request_while_disabled (hw : GPIO.t) :
  GPIO.IEN hw = 0 -> GPIO_requests hw = 0.
Proof. intros H. unfold GPIO_requests. rewrite H. apply Z.land_0_r. Qed.

Ltac stale_bits :=
  apply land_disjoint; intros n Hn;
  unfold BUS_RegBitWrite;
  rewrite ?Z.setbit_eqb, ?Z.clearbit_eqb, ?Z.bits_0 by lia;
  destruct (Z.eqb_spec 7 n), (Z.eqb_spec 9 n), (Z.eqb_spec 10 n);
  cbn [orb andb negb]; rewrite ?andb_false_r, ?andb_true_r; intros Hm;
  first [reflexivity | discriminate | lia].

(** X11. When no GPIO line is enabled to interrupt before
    [initGPIOwakeup] (the reset state), no line requests an interrupt after
    any of its calls, whatever flags were pending before: each line has its
    pending flag cleared before it is enabled. *)
Theorem X11_no_request_from_a_stale_flag
    (raises : WakeEvent -> bool) (env : Env) (t : bool) (hw : GPIO.t) :
  GPIO.IEN hw = 0 ->
  always GPIO.step (fun s e => GPIO_requests (GPIO.step s e) =? 0) hw
    (foreground (trace (initGPIOwakeup raises env t))) = true.
Proof.
  intros Hien.
  destruct (initGPIOwakeup_straight raises env t) as (_ & -> & _).
  destruct hw as [mode dout psel rise fall ifl ien iser]. cbn in Hien. subst ien.
  unfold GPIO_requests.
  cbn [always initGPIOwakeup_calls GPIO.step GPIO.PinModeSet GPIO.IntConfig
       GPIO.EnableIRQ GPIO.IFLAGS GPIO.IEN].
  pins. rewrite Z.land_0_r. cbn [Z.eqb andb].
  repeat (apply andb_true_intro; split); try reflexivity;
    apply Z.eqb_eq; stale_bits.
Qed.

Lemma X11_no_request_from_a_stale_flag_witness :
  GPIO.IEN GPIO_stale_reset = 0
  /\ always GPIO.step (fun s e => GPIO_requests (GPIO.step s e) =? 0) GPIO_stale_reset
       (foreground (trace (initGPIOwakeup handlers_raise env_quiet false))) = true.
Proof.
  assert (H : GPIO.IEN GPIO_stale_reset = 0) by reflexivity.
  split; [exact H|].
  exact (X11_no_request_from_a_stale_flag handlers_raise env_quiet false
           GPIO_stale_reset H).
Defined.

(** ** The wake sources at every sleep *)

Lemma peripherals_replay (g : GPIO.t) (r : RTC.t) (tr : list event) :
  replay peripherals_step (g, r) tr
  = (replay GPIO.step g tr, replay RTC.do_call r tr).
Proof.
  revert g r. induction tr as [|e tr IH]; intros g r; [reflexivity|].
  cbn [replay]. unfold peripherals_step at 2. cbn [fst snd]. apply IH.
Qed.

Lemma boot_arms_wake_sources (D : bool) (env : Env) (hw : GPIO.t) :
  replay GPIO.step hw (main_start_calls env ++ main_init_calls D)
  = GPIO.run (GPIO.EnableIRQ RTC_IRQn hw) initGPIOwakeup_calls.
Proof. destruct D; reflexivity. Qed.

Lemma boot_starts_timer (D : bool) (env : Env) (r : RTC.t) :
  let r' := replay RTC.do_call r (main_start_calls env ++ main_init_calls D) in
  RTC.IEN_COMP0 r' = true /\ RTC.unmasked r' = true /\ RTC.CTRL_EN r' = true.
Proof. destruct D; repeat split. Qed.

Lemma boot_does_not_sleep (D : bool) (env : Env) (s : GPIO.t * RTC.t) :
  always peripherals_step sleep_ready s (main_start_calls env ++ main_init_calls D)
  = true.
Proof. destruct D; reflexivity. Qed.

Lemma gpio_ready_after_init (hw : GPIO.t) :
  let hw' := GPIO.run (GPIO.EnableIRQ RTC_IRQn hw) initGPIOwakeup_calls in
  GPIO.unmasked hw' RTC_IRQn = true
  /\ GPIO.unmasked hw' GPIO_EVEN_IRQn = true
  /\ GPIO.unmasked hw' GPIO_ODD_IRQn = true
  /\ GPIO.button_armed hw' PB0_PORT PB0_PIN = true
  /\ GPIO.button_armed hw' PB1_PORT PB1_PIN = true
  /\ GPIO.motion_armed hw' true = true.
Proof.
  intros hw'. unfold hw'.
  destruct (unmasked_both (GPIO.EnableIRQ RTC_IRQn hw)) as (U0 & U1).
  destruct (edges (GPIO.EnableIRQ RTC_IRQn hw)) as (E0 & E1 & E2 & E3).
  split; [|split; [exact U0|split; [exact U1|]]].
  - unfold GPIO.unmasked. hw_run. apply bool_decide_eq_true_2. set_solver.
  - unfold GPIO.button_armed, GPIO.motion_armed, GPIO.is_input, GPIO.is_filtered.
    rewrite mode_PB0, mode_PB1, mode_INT1, dout_INT1, E0, E1, E2, E3.
    rewrite armed_PB0, armed_PB1, armed_INT1. repeat split.
Qed.

Lemma round_keeps_peripherals (D b : bool) (s : GPIO.t * RTC.t) :
  replay peripherals_step s (round_shape D b) = s
  /\ always peripherals_step sleep_ready s (round_shape D b) = wake_ready s.
Proof.
  destruct s as [g r].
  destruct b, D; split; cbn; rewrite ?andb_true_r; reflexivity.
Qed.

Lemma rounds_sleep_ready (D : bool) (bs : list bool) (s : GPIO.t * RTC.t) :
  wake_ready s = true ->
  always peripherals_step sleep_ready s (concat (map (round_shape D) bs)) = true.
Proof.
  intros Hw. induction bs as [|b bs IH]; [reflexivity|].
  cbn [map concat]. destruct (round_keeps_peripherals D b s) as [H1 H2].
  now rewrite always_app, H1, H2, Hw, IH.
Qed.

Lemma sleep_ready_foreground (s : GPIO.t * RTC.t) (tr : list event) :
  always peripherals_step sleep_ready s (foreground tr)
  = always peripherals_step sleep_ready s tr.
Proof.
  apply always_foreground.
  - intros [g r] w. reflexivity.
  - reflexivity.
Qed.

(** X12. In any run of the program, whatever the peripherals held before,
    every entry into EM2 happens with the wake sources set up: the RTC line
    and both GPIO lines of the interrupt controller unmasked; both button
    lines filtered inputs, routed, enabled and armed for the falling edge;
    the motion line an input, routed, enabled and armed for the rising edge
    only; the compare interrupt of the counter enabled and the counter
    running. *)
Theorem X12_every_sleep_is_entered_with_the_wake_sources_armed
    (DEBUGGING : bool) (raises : WakeEvent -> bool) (env : Env)
    (fuel : nat) (t : bool) (hw : GPIO.t) (rtc : RTC.t) :
  always peripherals_step sleep_ready (hw, rtc)
    (trace (main DEBUGGING raises env fuel t)) = true.
Proof.
  rewrite <- sleep_ready_foreground, main_foreground.
  destruct (systick_result env =? 0).
  - rewrite app_assoc, always_app, boot_does_not_sleep.
    apply rounds_sleep_ready.
    rewrite peripherals_replay, boot_arms_wake_sources.
    unfold wake_ready. cbn [fst snd].
    destruct (gpio_ready_after_init hw) as (-> & -> & -> & -> & -> & ->).
    destruct (boot_starts_timer DEBUGGING env rtc) as (-> & -> & ->).
    reflexivity.
  - rewrite app_nil_r. reflexivity.
Qed.

(** ** Other delays *)

Lemma COMPARE_RTC_for_60 : COMPARE_RTC = COMPARE_RTC_for 60.
Proof. vm_compute. reflexivity. Qed.

Lemma delays_fit : forallb delay_fits (map Z.of_nat (seq 1 511)) = true.
Proof. vm_compute. reflexivity. Qed.

(** X13. For every whole number of seconds from 1 to 511 in the place of
    [DELAY_RTC], the expression of [COMPARE_RTC] is exact: the product with
    32768 is computed without rounding, the conversion to [uint32_t] keeps
    it, and it fits the 24 bits of the compare register. *)
Theorem X13_whole_delays_up_to_511_seconds_are_exact (seconds : Z) :
  1 <= seconds <= 511 ->
  uint32_of_double (COMPARE_RTC_for seconds) = seconds * LFXOFREQ
  /\ integer_of_double (COMPARE_RTC_for seconds) = Some (seconds * LFXOFREQ)
  /\ Z.land (seconds * LFXOFREQ) RTC.COMP0_MASK = seconds * LFXOFREQ.
Proof.
  intros Hs.
  assert (Hin : In seconds (map Z.of_nat (seq 1 511))).
  { apply in_map_iff. exists (Z.to_nat seconds). split; [lia|].
    apply in_seq. lia. }
  pose proof (proj1 (forallb_forall delay_fits _) delays_fit seconds Hin) as H.
  unfold delay_fits in H.
  apply andb_prop in H as [H H3]. apply andb_prop in H as [H1 H2].
  apply Z.eqb_eq in H1, H3.
  destruct (integer_of_double (COMPARE_RTC_for seconds)) as [z|]; [|discriminate].
  apply Z.eqb_eq in H2. subst z. repeat split; assumption.
Qed.

Lemma X13_whole_delays_up_to_511_seconds_are_exact_witness :
  1 <= 60 <= 511
  /\ uint32_of_double (COMPARE_RTC_for 60) = 60 * LFXOFREQ.
Proof.
  assert (H : 1 <= 60 <= 511) by lia.
  split; [exact H|].
  exact (proj1 (X13_whole_delays_up_to_511_seconds_are_exact 60 H)).
Defined.

(** ** The sensor operations of the whole program *)

Section SensorOperations.
Variable DEBUGGING : bool.
Variable raises : WakeEvent -> bool.
Variable env : Env.

Lemma boot_foreground (t : bool) :
  foreground (trace (main DEBUGGING raises env 0 t))
  = main_start_calls env
    ++ (if systick_result env =? 0 then main_init_calls DEBUGGING else []).
Proof.
  rewrite main_foreground. cbn [tests map concat].
  destruct (systick_result env =? 0); now rewrite ?app_nil_r.
Qed.

Lemma boot_flag (t : bool) :
  systick_result env = 0 ->
  flag (main DEBUGGING raises env 0 t)
  = existsb raises (boot_window DEBUGGING env) || t.
Proof. intros Hok. rewrite main_run by assumption. reflexivity. Qed.

Lemma rounds_no_config (bs : list bool) :
  List.filter is_config_write (concat (map (round_shape DEBUGGING) bs)) = [].
Proof.
  induction bs as [|b bs IH]; [reflexivity|].
  cbn [map concat]. rewrite List.filter_app, IH.
  destruct b, DEBUGGING; reflexivity.
Qed.

End SensorOperations.

(** C7. The sensor operations of the program up to the main loop are, in
    this order: the soft reset, the range, output-data-rate and
    activity-threshold configuration, and the enabling of measurement, which
    is the last of them; the rest of the program is the main loop, which
    performs no configuration write, so the only sensor operations that
    follow [measureADXL(true)] are the status reads of the loop.  In any run
    every configuration write comes after the reset and while measurement is
    disabled.  (When [SysTick_Config] fails the program performs no sensor
    operation.) *)
Theorem C7_reset_then_configure_then_measure
    (DEBUGGING : bool) (raises : WakeEvent -> bool) (env : Env)
    (fuel : nat) (t : bool) :
  let boot := main DEBUGGING raises env 0 t in
  let run := main DEBUGGING raises env fuel t in
  let loop := main_loop DEBUGGING raises env fuel (flag boot) in
  List.filter is_bus_access (trace (main_init DEBUGGING raises env t))
  = [resetHandlerADXL; configADXL_range 1; configADXL_ODR 0;
     configADXL_activity 3; measureADXL true]
  /\ List.filter is_bus_access (trace boot)
     = (if systick_result env =? 0
        then [resetHandlerADXL; configADXL_range 1; configADXL_ODR 0;
              configADXL_activity 3; measureADXL true]
        else [])
  /\ foreground (trace run)
     = foreground (trace boot)
       ++ (if systick_result env =? 0 then foreground (trace loop) else [])
  /\ List.filter is_config_write (trace loop) = []
  /\ List.filter is_bus_access (trace run)
     = (if systick_result env =? 0
        then [resetHandlerADXL; configADXL_range 1; configADXL_ODR 0;
              configADXL_activity 3; measureADXL true]
             ++ repeat (readADXL ADXL_REG_STATUS)
                  (length (List.filter (fun b => b) (reads (trace run))))
        else [])
  /\ configured_in_standby (trace run) = true.
Proof.
  intros boot run loop.
  split; [|split; [|split; [|split; [|split]]]].
  - rewrite <- filter_foreground by reflexivity.
    rewrite main_init_foreground. destruct DEBUGGING; reflexivity.
  - unfold boot. rewrite <- filter_foreground by reflexivity.
    rewrite boot_foreground.
    destruct (systick_result env =? 0); [|reflexivity].
    destruct DEBUGGING; reflexivity.
  - unfold run, loop, boot. rewrite boot_foreground, main_foreground.
    destruct (Z.eqb_spec (systick_result env) 0) as [Hok|Hfail].
    + rewrite boot_flag by assumption. unfold main_loop.
      now rewrite main_loop_tests, <- app_assoc.
    + reflexivity.
  - unfold loop, main_loop. rewrite <- filter_foreground by reflexivity.
    destruct (main_loop_foreground DEBUGGING raises env fuel 0 (flag boot))
      as (bs & _ & ->).
    apply rounds_no_config.
  - unfold run. rewrite <- (filter_foreground is_bus_access) by reflexivity.
    destruct (Z.eqb_spec (systick_result env) 0) as [Hok|Hfail].
    + rewrite main_reads by assumption.
      rewrite main_foreground, Hok. cbn [Z.eqb].
      rewrite !List.filter_app.
      rewrite (filter_rounds is_bus_access DEBUGGING _ (readADXL ADXL_REG_STATUS))
        by (intros b; destruct b, DEBUGGING; reflexivity).
      destruct DEBUGGING; reflexivity.
    + rewrite main_foreground.
      apply Z.eqb_neq in Hfail. rewrite Hfail. reflexivity.
  - unfold run, configured_in_standby.
    rewrite <- always_foreground by reflexivity.
    rewrite main_foreground, always_app.
    destruct (systick_result env =? 0); [|reflexivity].
    rewrite always_app, rounds_config.
    destruct DEBUGGING; reflexivity.
Qed.
